(** * Phishing URL detector: feature extraction pipeline of [app.py]

    A shallow embedding of the feature-extraction and scoring code of
    [src/app.py], and the properties of it that the design document states.

    Modelling conventions.
    - A Python [str] is a Rocq [string]; each [ascii] is one code point in
      the range U+0000..U+00FF. The word characters of [re] are tabulated
      for that range ([is_word]). What [unicodedata.normalize] answers in
      the NFKC check of [urllib.parse] is a parameter of the development:
      no theorem assumes that a host which is not ASCII passes that check.
    - Python integers are [Z].
    - A call that may raise returns a [result]; [Raise e] carries the class
      of the exception.
    - The network, the WHOIS service, the clock and the ranking table are
      read from an [env] record of oracles; within one run an oracle gives
      the same answer to the same question.
    - The [functools.lru_cache] on [check_dns_record] is an explicit store
      that is threaded through [extract_features].
    - [urllib.parse] is modelled after CPython 3.11. The validation of a
      bracketed host ([_check_bracketed_netloc], which calls into the
      [ipaddress] module) is a parameter of the development too. *)

From Stdlib Require Import String Ascii ZArith List Bool Lia.
Import ListNotations.

Open Scope string_scope.
Open Scope Z_scope.

(** ** Exceptions and results *)

(** The exception classes that the modelled calls raise. [gaierror] and
    [timeout] are the subclasses of [OSError] that the [socket] module
    raises; [socket.error] is an alias of [OSError]. [UnicodeError] is a
    subclass of [ValueError]. Every class here derives from [Exception]. *)
Inductive exn : Type :=
| ValueError
| UnicodeError
| TypeError
| IndexError
| AttributeError
| OSError
| gaierror
| timeout
| RequestException
| OtherException (name : string).

(** [isinstance(e, socket.error)]. [requests.RequestException] derives from
    [IOError], which is [OSError] too. *)
Definition is_socket_error (e : exn) : bool :=
  match e with
  | OSError | gaierror | timeout | RequestException => true
  | _ => false
  end.

Inductive result (A : Type) : Type :=
| Return (a : A)
| Raise (e : exn).

Arguments Return {A} a.
Arguments Raise {A} e.

Definition bind_result {A B : Type} (r : result A) (k : A -> result B) : result B :=
  match r with
  | Return a => k a
  | Raise e => Raise e
  end.

(** [try: body  except Exception: handler] for a body without state. *)
Definition try_except {A : Type} (body : result A) (handler : exn -> result A) : result A :=
  match body with
  | Return a => Return a
  | Raise e => handler e
  end.

(** ** Python string operations *)

Definition code (c : ascii) : N := N_of_ascii c.

Definition in_range (lo hi : N) (c : ascii) : bool :=
  (N.leb lo (code c) && N.leb (code c) hi)%bool.

(** [s[:n]] and [s[n:]] for [0 <= n]. *)
Fixpoint take (n : nat) (s : string) : string :=
  match n, s with
  | S n', String c s' => String c (take n' s')
  | _, _ => EmptyString
  end.

Fixpoint drop (n : nat) (s : string) : string :=
  match n, s with
  | S n', String _ s' => drop n' s'
  | _, _ => s
  end.

(** A slice bound as Python normalises it: a negative bound counts from
    the end and is clipped at 0. *)
Definition norm_index (len : nat) (i : Z) : nat :=
  if i <? 0 then Z.to_nat (Z.max 0 (Z.of_nat len + i)) else Z.to_nat i.

Definition slice_to (s : string) (i : Z) : string := take (norm_index (String.length s) i) s.
Definition slice_from (s : string) (i : Z) : string := drop (norm_index (String.length s) i) s.

Fixpoint index_of (c : ascii) (s : string) : option nat :=
  match s with
  | EmptyString => None
  | String a s' => if Ascii.eqb a c then Some O else option_map S (index_of c s')
  end.

Fixpoint rindex_of (c : ascii) (s : string) : option nat :=
  match s with
  | EmptyString => None
  | String a s' =>
      match rindex_of c s' with
      | Some i => Some (S i)
      | None => if Ascii.eqb a c then Some O else None
      end
  end.

(** [s.find(c, start)] and [s.rfind(c)] for a one-character [c]. *)
Definition find (s : string) (c : ascii) (start : nat) : Z :=
  match index_of c (drop start s) with
  | Some i => Z.of_nat (start + i)
  | None => -1
  end.

Definition rfind (s : string) (c : ascii) : Z :=
  match rindex_of c s with
  | Some i => Z.of_nat i
  | None => -1
  end.

(** [c in s] for a one-character [c]. *)
Definition has_char (c : ascii) (s : string) : bool :=
  match index_of c s with Some _ => true | None => false end.

(** [sub in s]. *)
Fixpoint contains (sub s : string) : bool :=
  (prefix sub s ||
   match s with
   | EmptyString => false
   | String _ s' => contains sub s'
   end)%bool.

(** [s.count(c)] for a one-character [c]. *)
Fixpoint count (c : ascii) (s : string) : Z :=
  match s with
  | EmptyString => 0
  | String a s' => (if Ascii.eqb a c then 1 else 0) + count c s'
  end.

(** [s.lstrip(chars)], with [chars] given as a predicate. *)
Fixpoint lstrip (p : ascii -> bool) (s : string) : string :=
  match s with
  | String a s' => if p a then lstrip p s' else s
  | EmptyString => EmptyString
  end.

(** [s.rstrip(c)] for a one-character [c]: every trailing [c] is removed. *)
Fixpoint rstrip (c : ascii) (s : string) : string :=
  match s with
  | EmptyString => EmptyString
  | String a s' =>
      match rstrip c s' with
      | EmptyString => if Ascii.eqb a c then EmptyString else String a EmptyString
      | r => String a r
      end
  end.

(** [s.replace(c, "")] for every [c] that satisfies [p]. *)
Fixpoint remove_chars (p : ascii -> bool) (s : string) : string :=
  match s with
  | EmptyString => EmptyString
  | String a s' => if p a then remove_chars p s' else String a (remove_chars p s')
  end.

Definition is_ascii_upper (c : ascii) : bool := in_range 65 90 c.
Definition is_ascii_lower (c : ascii) : bool := in_range 97 122 c.
Definition is_ascii_digit (c : ascii) : bool := in_range 48 57 c.
Definition is_ascii_alpha (c : ascii) : bool := (is_ascii_upper c || is_ascii_lower c)%bool.

(** [s.lower()], used on strings of ASCII characters only. *)
Definition lower_char (c : ascii) : ascii :=
  if is_ascii_upper c then ascii_of_N (code c + 32) else c.

Fixpoint lower (s : string) : string :=
  match s with
  | EmptyString => EmptyString
  | String a s' => String (lower_char a) (lower s')
  end.

Fixpoint string_forallb (p : ascii -> bool) (s : string) : bool :=
  match s with
  | EmptyString => true
  | String a s' => (p a && string_forallb p s')%bool
  end.

(** [s in l] for a list of strings. *)
Definition in_list (s : string) (l : list string) : bool :=
  existsb (String.eqb s) l.

(** ** Regular expressions: the fragment of [re] that the code uses *)

(** [\w] on [str] patterns: [str.isalnum] or the underscore, tabulated for
    the code points below U+0100. *)
Definition is_word (c : ascii) : bool :=
  (in_range 48 57 c || in_range 65 90 c || in_range 95 95 c || in_range 97 122 c
   || in_range 170 170 c || in_range 178 179 c || in_range 181 181 c
   || in_range 185 186 c || in_range 188 190 c || in_range 192 214 c
   || in_range 216 246 c || in_range 248 255 c)%bool.

Inductive regex : Type :=
| Lit (c : ascii)
| InRange (lo hi : ascii)
| Cat (r1 r2 : regex)
| MaxRepeat (lo hi : nat) (r : regex)
| AtBoundary.

(** A position in the subject: the character before it, when there is one,
    and the text that remains. *)
Definition cont : Type := option ascii -> string -> bool.

Definition word_before (prev : option ascii) : bool :=
  match prev with Some c => is_word c | None => false end.

Definition word_here (s : string) : bool :=
  match s with String c _ => is_word c | EmptyString => false end.

(** [\b]: exactly one of the two neighbours is a word character. *)
Definition at_boundary (prev : option ascii) (s : string) : bool :=
  xorb (word_before prev) (word_here s).

(** Greedy bounded repetition with backtracking: [hi] iterations remain
    allowed, of which [lo] are still required. *)
Fixpoint rep (step : cont -> cont) (hi lo : nat) (k : cont) : cont :=
  fun prev s =>
    match hi with
    | O => k prev s
    | S hi' =>
        match lo with
        | S lo' => step (rep step hi' lo' k) prev s
        | O => (step (rep step hi' O k) prev s || k prev s)%bool
        end
    end.

Fixpoint matches (r : regex) (k : cont) {struct r} : cont :=
  match r with
  | Lit c => fun _ s =>
      match s with
      | String a s' => (Ascii.eqb a c && k (Some a) s')%bool
      | EmptyString => false
      end
  | InRange lo hi => fun _ s =>
      match s with
      | String a s' => (in_range (code lo) (code hi) a && k (Some a) s')%bool
      | EmptyString => false
      end
  | Cat r1 r2 => matches r1 (matches r2 k)
  | MaxRepeat lo hi r1 => rep (fun k' => matches r1 k') hi lo k
  | AtBoundary => fun prev s => (at_boundary prev s && k prev s)%bool
  end.

Fixpoint search_from (r : regex) (prev : option ascii) (s : string) : bool :=
  (matches r (fun _ _ => true) prev s ||
   match s with
   | String a s' => search_from r (Some a) s'
   | EmptyString => false
   end)%bool.

(** The truth value of [re.search(r, s)]. *)
Definition re_search (r : regex) (s : string) : bool := search_from r None s.

Fixpoint cat_all (rs : list regex) (last : regex) : regex :=
  match rs with
  | [] => last
  | r :: rs' => Cat r (cat_all rs' last)
  end.

(** The pattern [\b(?:[0-9]{1,3}\.){3}[0-9]{1-3}\b] of [has_ip_address] as
    [re] parses it. [{1,3}] and [{3}] are repetition counts. [{1-3}] is not
    a well-formed count, and the parser then reads the brace and what
    follows it as literal characters: the last part of the pattern is one
    digit followed by the five characters [{1-3}]. *)
Definition ip_pattern : regex :=
  cat_all
    [ AtBoundary;
      MaxRepeat 3 3 (Cat (MaxRepeat 1 3 (InRange "0" "9")) (Lit "."));
      InRange "0" "9";
      Lit "{"; Lit "1"; Lit "-"; Lit "3"; Lit "}" ]
    AtBoundary.

(** ** [urllib.parse.urlparse] *)

(** [ParseResult]: the six components [urlparse] returns. *)
Record ParseResult : Type := mkParseResult {
  scheme : string;
  netloc : string;
  path : string;
  params : string;
  query : string;
  fragment : string
}.

(** [uses_params] of [urllib.parse]. *)
Definition uses_params : list string :=
  [""; "ftp"; "hdl"; "prospero"; "http"; "imap";
   "https"; "shttp"; "rtsp"; "rtspu"; "sip"; "sips";
   "mms"; "sftp"; "tel"].

(** Membership in [scheme_chars]: letters, digits, [+], [-] and [.]. *)
Definition scheme_char (c : ascii) : bool :=
  (is_ascii_lower c || is_ascii_upper c || is_ascii_digit c
   || Ascii.eqb c "+" || Ascii.eqb c "-" || Ascii.eqb c ".")%bool.

(** Membership in [_WHATWG_C0_CONTROL_OR_SPACE]: U+0000..U+0020. *)
Definition c0_control_or_space (c : ascii) : bool := in_range 0 32 c.

(** Membership in [_UNSAFE_URL_BYTES_TO_REMOVE]: tab, CR and LF. *)
Definition unsafe_url_byte (c : ascii) : bool :=
  (N.eqb (code c) 9 || N.eqb (code c) 13 || N.eqb (code c) 10)%bool.

(** [_splitnetloc(url, start)]: the host part ends at the first of [/], [?]
    and [#] at or after [start], or at the end of the string. *)
Definition _splitnetloc (url : string) (start : nat) : string * string :=
  let delim :=
    fold_left
      (fun delim c =>
         let wdelim := find url c start in
         if wdelim >=? 0 then Z.min delim wdelim else delim)
      ["/"%char; "?"%char; "#"%char]
      (Z.of_nat (String.length url)) in
  (drop start (slice_to url delim), slice_from url delim).

(** [_splitparams(url)]: the parameters of the last path segment. *)
Definition _splitparams (url : string) : string * string :=
  if has_char "/" url then
    let i := find url ";" (Z.to_nat (rfind url "/")) in
    if i <? 0 then (url, "")
    else (slice_to url i, slice_from url (i + 1))
  else
    let i := find url ";" 0 in
    (slice_to url i, slice_from url (i + 1)).

(** [s.split(c, 1)] when [c] occurs in [s]. *)
Definition split_once (s : string) (c : ascii) : string * string :=
  let i := find s c 0 in (slice_to s i, slice_from s (i + 1)).

(** [s.isascii()]. *)
Definition isascii (s : string) : bool := string_forallb (in_range 0 127) s.

(** Membership in [@:#?], the characters [_checknetloc] removes before it
    normalises. *)
Definition netloc_delimiter (c : ascii) : bool :=
  (Ascii.eqb c "@" || Ascii.eqb c ":" || Ascii.eqb c "#" || Ascii.eqb c "?")%bool.

Section Pipeline.

(** [_check_bracketed_netloc(netloc)] of [urllib.parse], called when the
    host contains both brackets: it raises [ValueError] unless the bracketed
    text is an IPv6 or IPvFuture literal. Releases of CPython before the
    check was introduced behave as the function that always returns. *)
Variable _check_bracketed_netloc : string -> result unit.

(** The Unicode part of [_checknetloc], on the host [n] from which [@:#?]
    were removed: whether [unicodedata.normalize('NFKC', n)] differs from
    [n] and holds one of [/?#@:]. *)
Variable nfkc_has_delimiter : string -> bool.

(** [_checknetloc(netloc)]: an empty or ASCII host passes; any other host
    raises [ValueError] when its NFKC form holds a delimiter. *)
Definition _checknetloc (netloc : string) : result unit :=
  if (String.eqb netloc "" || isascii netloc)%bool then Return tt
  else
    let n := remove_chars netloc_delimiter netloc in
    if nfkc_has_delimiter n then Raise ValueError else Return tt.

(** [urlsplit(url)] with the default [scheme=''] and [allow_fragments=True]:
    scheme, netloc, path, query, fragment. *)
Definition urlsplit (url : string)
  : result (string * string * string * string * string) :=
  let url := lstrip c0_control_or_space url in
  let url := remove_chars unsafe_url_byte url in
  let i := find url ":" 0 in
  let '(scheme, url) :=
    if ((i >? 0) &&
        match url with String c _ => is_ascii_alpha c | EmptyString => false end)%bool
    then
      if string_forallb scheme_char (slice_to url i)
      then (lower (slice_to url i), slice_from url (i + 1))
      else ("", url)
    else ("", url) in
  bind_result
    (if String.eqb (take 2 url) "//" then
       let '(netloc, url) := _splitnetloc url 2 in
       if ((has_char "[" netloc && negb (has_char "]" netloc)) ||
           (has_char "]" netloc && negb (has_char "[" netloc)))%bool
       then Raise ValueError
       else if (has_char "[" netloc && has_char "]" netloc)%bool
       then bind_result (_check_bracketed_netloc netloc)
                        (fun _ => Return (netloc, url))
       else Return (netloc, url)
     else Return ("", url))
    (fun '(netloc, url) =>
       let '(url, fragment) :=
         if has_char "#" url then split_once url "#" else (url, "") in
       let '(url, query) :=
         if has_char "?" url then split_once url "?" else (url, "") in
       bind_result (_checknetloc netloc)
         (fun _ => Return (scheme, netloc, url, query, fragment))).

Definition urlparse (url : string) : result ParseResult :=
  bind_result (urlsplit url)
    (fun '(scheme, netloc, url, query, fragment) =>
       let '(url, params) :=
         if (in_list scheme uses_params && has_char ";" url)%bool
         then _splitparams url
         else (url, "") in
       Return (mkParseResult scheme netloc url params query fragment)).

(** ** Lexical features *)

Definition has_ip_address (url : string) : Z :=
  if re_search ip_pattern url then 1 else 0.

Definition has_at_symbol (url : string) : Z :=
  if has_char "@" url then 1 else 0.

Definition get_url_length (url : string) : Z :=
  if Z.of_nat (String.length url) <? 54 then 1 else 0.

Definition get_url_depth (url : string) : result Z :=
  bind_result (urlparse url)
    (fun p =>
       if String.eqb (path p) "/" then Return 0
       else Return (count "/" (path p))).

Definition has_redirection (url : string) : result Z :=
  bind_result (urlparse url)
    (fun p => Return (if contains "//" (path p) then 1 else 0)).

Definition has_https_in_domain (url : string) : result Z :=
  bind_result (urlparse url)
    (fun p =>
       let domain := netloc p in
       Return (if contains "https" domain then 1 else 0)).

Definition is_tiny_url (url : string) : result Z :=
  let tiny_domain := ["bit.ly"; "goog.gl"; "tinyurl.com"; "ow.ly"; "t.co"] in
  bind_result (urlparse url)
    (fun p =>
       let domain := netloc p in
       Return (if in_list domain tiny_domain then 1 else 0)).

Definition has_prefix_suffix (url : string) : result Z :=
  bind_result (urlparse url)
    (fun p =>
       let domain := netloc p in
       Return (if has_char "-" domain then 1 else 0)).

(** ** The world outside the process *)

(** A date as a WHOIS record holds it: [None], a string that could not be
    parsed, or a [datetime], naive or timezone-aware, as microseconds on
    its time line. *)
Inductive pydate : Type :=
| DNone
| DStr (s : string)
| DDatetime (aware : bool) (us : Z).

(** A date field of a WHOIS record: one date or a list of dates. *)
Inductive pyval : Type :=
| PScalar (d : pydate)
| PList (l : list pydate).

(** What [whois.whois(domain)] returns; reading an attribute may raise. *)
Record WhoisEntry : Type := mkWhoisEntry {
  creation_date : result pyval;
  expiration_date : result pyval
}.

(** What [requests.get] returns: the body and the chain of redirects. *)
Record Response : Type := mkResponse {
  text : string;
  history : list string
}.

(** A cell of [ranked_domains.values]. *)
Inductive cell : Type :=
| CellInt (n : Z)
| CellStr (s : string)
| CellNaN.

Record env : Type := mkEnv {
  gethostbyname : string -> result string;
  ranked_domains_values : list (list cell);
  whois : string -> result WhoisEntry;
  datetime_now : Z;
  requests_get : string -> Z -> result Response
}.

(** ** The memoisation store of [check_dns_record] *)

(** [functools.lru_cache(maxsize=10000)]: the entries, most recently used
    first. *)
Definition cache : Type := list (string * Z).

Definition maxsize : nat := Z.to_nat 10000.

Fixpoint cache_get (k : string) (c : cache) : option Z :=
  match c with
  | [] => None
  | (k', v) :: c' => if String.eqb k k' then Some v else cache_get k c'
  end.

Fixpoint cache_remove (k : string) (c : cache) : cache :=
  match c with
  | [] => []
  | (k', v) :: c' =>
      if String.eqb k k' then cache_remove k c' else (k', v) :: cache_remove k c'
  end.

(** A computation that reads and updates the store and may raise. *)
Definition M (A : Type) : Type := cache -> result A * cache.

Definition ret {A : Type} (a : A) : M A := fun c => (Return a, c).

Definition lift {A : Type} (r : result A) : M A := fun c => (r, c).

Definition bind {A B : Type} (m : M A) (k : A -> M B) : M B :=
  fun c =>
    match m c with
    | (Return a, c') => k a c'
    | (Raise e, c') => (Raise e, c')
    end.

Notation "x <- m ;; k" := (bind m (fun x => k))
  (at level 61, m at next level, right associativity).

(** The decorator: a hit returns the stored value and makes the entry the
    most recent one; a miss calls the function, stores what it returns and
    drops the least recently used entry beyond [maxsize]; a call that raises
    stores nothing. *)
Definition lru_cache (f : string -> result Z) (k : string) : M Z :=
  fun c =>
    match cache_get k c with
    | Some v => (Return v, (k, v) :: cache_remove k c)
    | None =>
        match f k with
        | Return v => (Return v, firstn maxsize ((k, v) :: c))
        | Raise e => (Raise e, c)
        end
    end.

(** ** Network probes *)

(** The body of [check_dns_record]: [except socket.error] handles the
    subclasses of [OSError] only; any other exception propagates. *)
Definition check_dns_record_wrapped (e : env) (domain : string) : result Z :=
  match gethostbyname e domain with
  | Return _ => Return 1
  | Raise ex => if is_socket_error ex then Return 0 else Raise ex
  end.

Definition check_dns_record (e : env) (domain : string) : M Z :=
  lru_cache (check_dns_record_wrapped e) domain.

(** [x == domain] for a cell [x]. *)
Definition cell_eq_str (x : cell) (domain : string) : bool :=
  match x with
  | CellStr s => String.eqb s domain
  | _ => false
  end.

(** [domain in ranked_domains.values]: some cell equals [domain]. *)
Definition get_web_traffic (e : env) (domain : string) : Z :=
  if existsb (existsb (fun x => cell_eq_str x domain)) (ranked_domains_values e)
  then 1 else 0.

(** [if isinstance(v, list): v = v[0]]. *)
Definition first_if_list (v : pyval) : result pydate :=
  match v with
  | PList [] => Raise IndexError
  | PList (x :: _) => Return x
  | PScalar x => Return x
  end.

(** [a - b] for two dates, as a [timedelta] in microseconds: defined for two
    naive or two aware [datetime]s, a [TypeError] for anything else. *)
Definition datetime_sub (a b : pydate) : result Z :=
  match a, b with
  | DDatetime aa x, DDatetime ab y =>
      if Bool.eqb aa ab then Return (x - y) else Raise TypeError
  | _, _ => Raise TypeError
  end.

(** [timedelta.days]: the whole days, rounded towards minus infinity. *)
Definition days (td : Z) : Z := td / (86400 * 1000000).

Definition now (e : env) : pydate := DDatetime false (datetime_now e).

Definition get_domain_age (e : env) (domain : string) : result Z :=
  try_except
    (bind_result (whois e domain) (fun domain_info =>
     bind_result (creation_date domain_info) (fun creation_date =>
     bind_result (first_if_list creation_date) (fun creation_date =>
     bind_result (datetime_sub (now e) creation_date) (fun td =>
     let age_in_days := days td in
     Return (if age_in_days >=? 365 then 1 else 0))))))
    (fun _ => Return 0).

Definition get_domain_end_period (e : env) (domain : string) : result Z :=
  try_except
    (bind_result (whois e domain) (fun domain_info =>
     bind_result (expiration_date domain_info) (fun expiration_date =>
     bind_result (first_if_list expiration_date) (fun expiration_date =>
     bind_result (datetime_sub expiration_date (now e)) (fun td =>
     let days_to_expire := days td in
     Return (if days_to_expire >=? 180 then 1 else 0))))))
    (fun _ => Return 0).

Definition has_mouse_over_effect (e : env) (url : string) : result Z :=
  try_except
    (bind_result (requests_get e url 5) (fun response =>
     let html := text response in
     Return (if contains "onmouseover" html then 1 else 0)))
    (fun _ => Return 0).

Definition allows_right_click (url : string) : Z := 1.

Definition has_web_forwards (e : env) (url : string) : result Z :=
  try_except
    (bind_result (requests_get e url 3) (fun response =>
     let redirect_count := Z.of_nat (List.length (history response)) in
     Return (if redirect_count >=? 3 then 1 else 0)))
    (fun _ => Return 0).

(** ** The feature vector *)

(** The elements of the list are evaluated from left to right; the first
    call that raises ends the evaluation. *)
Definition extract_features (e : env) (url : string) : M (list Z) :=
  let url := rstrip "/" url in
  p <- lift (urlparse url) ;;
  let domain := netloc p in
  f0 <- ret (has_ip_address url) ;;
  f1 <- ret (has_at_symbol url) ;;
  f2 <- ret (get_url_length url) ;;
  f3 <- lift (get_url_depth url) ;;
  f4 <- lift (has_redirection url) ;;
  f5 <- lift (has_https_in_domain url) ;;
  f6 <- lift (is_tiny_url url) ;;
  f7 <- lift (has_prefix_suffix url) ;;
  f8 <- check_dns_record e domain ;;
  f9 <- ret (get_web_traffic e domain) ;;
  f10 <- lift (get_domain_age e domain) ;;
  f11 <- lift (get_domain_end_period e domain) ;;
  f13 <- lift (has_mouse_over_effect e url) ;;
  f14 <- ret (allows_right_click url) ;;
  f15 <- lift (has_web_forwards e url) ;;
  ret [f0; f1; f2; f3; f4; f5; f6; f7; f8; f9; f10; f11; 0; f13; f14; f15].

(** ** Scoring *)

(** What [explainer.shap_values] returns: an array, or a list of arrays. *)
Inductive shap_output (ndarray : Type) : Type :=
| ShapArray (a : ndarray)
| ShapList (l : list ndarray).

Arguments ShapArray {ndarray} a.
Arguments ShapList {ndarray} l.

(** The fitted scaler, the classifier, the explainer and the array
    operations of the numerical library, on an abstract type of arrays of
    floating-point numbers. *)
Record artifacts : Type := mkArtifacts {
  ndarray : Type;
  scalar : Type;
  scaler_transform : list Z -> result ndarray;
  model_predict : ndarray -> result ndarray;
  explainer_shap_values : ndarray -> result (shap_output ndarray);
  ndim : ndarray -> nat;
  squeeze_last : ndarray -> result ndarray;
  item_0_0 : ndarray -> result scalar
}.

Definition prediction_tuple (a : artifacts) : Type :=
  (scalar a * list Z * ndarray a * ndarray a)%type.

(** The statements of the [try] block of [make_prediction_and_explain]. *)
Definition make_prediction_and_explain_body (a : artifacts) (e : env) (url : string)
  : M (prediction_tuple a) :=
  features <- extract_features e url ;;
  features_scaled <- lift (scaler_transform a features) ;;
  prediction <- lift (model_predict a features_scaled) ;;
  shap_values <- lift (explainer_shap_values a features_scaled) ;;
  shap_values <- lift (match shap_values with
                       | ShapList [] => Raise IndexError
                       | ShapList (x :: _) => Return x
                       | ShapArray x => Return x
                       end) ;;
  shap_values <- lift (if Nat.eqb (ndim a shap_values) 3
                       then squeeze_last a shap_values
                       else Return shap_values) ;;
  p00 <- lift (item_0_0 a prediction) ;;
  ret (p00, features, shap_values, features_scaled).

(** [except Exception] reports the error and returns four [None]s, here
    [None]. *)
Definition make_prediction_and_explain (a : artifacts) (e : env) (url : string)
  : M (option (prediction_tuple a)) :=
  fun c =>
    match make_prediction_and_explain_body a e url c with
    | (Return v, c') => (Return (Some v), c')
    | (Raise _, c') => (Return None, c')
    end.

(** ** Concrete environments *)

(** [_check_bracketed_netloc] of a CPython release without the check. *)
Definition no_bracket_check (netloc : string) : result unit := Return tt.

(** The NFKC form of a text of code points below U+0100 holds none of
    [/?#@:] unless the text does. *)
Definition no_nfkc_delimiter (n : string) : bool := false.

(** A machine without network access. The resolver fails with [gaierror];
    for the host [a..b], which has an empty label, the IDNA encoding of the
    argument of [socket.gethostbyname] fails first, with [UnicodeError]. *)
Definition offline_env : env :=
  mkEnv
    (fun domain => if String.eqb domain "a..b" then Raise UnicodeError else Raise gaierror)
    []
    (fun _ => Raise gaierror)
    1762128000000000
    (fun _ _ => Raise RequestException).

(** A machine on which every host resolves, the domain was registered at
    the epoch and expires in the far future, and the page is served after
    three redirects. *)
Definition online_env : env :=
  mkEnv
    (fun _ => Return "93.184.216.34")
    [[CellInt 1; CellStr "example.com"]]
    (fun _ => Return (mkWhoisEntry
                        (Return (PList [DDatetime false 0; DDatetime false 5]))
                        (Return (PScalar (DDatetime false 2000000000000000)))))
    1762128000000000
    (fun _ _ => Return (mkResponse "<a onmouseover=x>" ["a"; "b"; "c"])).

(** The environment [e] with the resolver replaced by [g]. *)
Definition with_gethostbyname (e : env) (g : string -> result string) : env :=
  mkEnv g (ranked_domains_values e) (whois e) (datetime_now e) (requests_get e).

(** [n] slashes. *)
Fixpoint slashes (n : nat) : string :=
  match n with
  | O => EmptyString
  | S n' => String "/" (slashes n')
  end.

(** An indicator value. *)
Definition binary (v : Z) : Prop := v = 0 \/ v = 1.

(** Every stored DNS flag is an indicator. *)
Definition cache_ok (c : cache) : Prop := Forall (fun kv => binary (snd kv)) c.

(** The count of [/] separators of a path in the words of the design
    document: how many characters of the path are a slash. It is stated
    with [count_occ] of the standard library on the list of characters,
    apart from [count], which models [str.count]. *)
Definition slash_separators (path : string) : nat :=
  count_occ ascii_dec (list_ascii_of_string path) "/"%char.

(** ** Plain URLs *)

(** No character of [chars] occurs in [s]. *)
Definition lacks (chars : list ascii) (s : string) : bool :=
  forallb (fun c => negb (has_char c s)) chars.

(** A host without a delimiter, a bracket, a tab, a CR or a LF. *)
Definition plain_host (host : string) : bool :=
  lacks ["/"; "?"; "#"; "["; "]"; "009"; "013"; "010"]%char host.

(** A path that is empty or starts with a slash, without query, fragment
    or parameters and without a tab, a CR or a LF. *)
Definition plain_path (p : string) : bool :=
  (match p with
   | EmptyString => true
   | String c _ => Ascii.eqb c "/"
   end && lacks ["?"; "#"; ";"; "009"; "013"; "010"]%char p)%bool.

(** A URL typed without a scheme: it does not start with a control
    character, a space or two slashes, and holds no colon, query, fragment
    or parameters and no tab, CR or LF. *)
Definition schemeless (url : string) : bool :=
  (match url with
   | EmptyString => true
   | String c _ => negb (c0_control_or_space c)
   end
   && negb (prefix "//" url)
   && lacks [":"; "?"; "#"; ";"; "009"; "013"; "010"]%char url)%bool.

(** ** Concrete artifacts and stores *)

(** Artifacts on lists of integers: the scaler is the identity, the
    classifier answers with one row, the explainer with a list that holds
    one array of three dimensions, which squeezes to itself. *)
Definition list_artifacts : artifacts :=
  mkArtifacts (list Z) Z
    (fun features => Return features)
    (fun _ => Return [1])
    (fun xs => Return (ShapList [xs]))
    (fun _ => 3%nat)
    (fun a => Return a)
    (fun a => match a with x :: _ => Return x | [] => Raise IndexError end).

(** A store that holds [maxsize] entries. *)
Definition full_store : cache :=
  (repeat ("recent.example", 1) (Z.to_nat 9999) ++ [("oldest.example", 0)])%list.

(** * Properties *)

(** ** Indicators and probes *)

Lemma binary_of_bool (b : bool) : binary (if b then 1 else 0).
Proof. destruct b; [right | left]; reflexivity. Qed.

Lemma has_ip_address_binary (url : string) : binary (has_ip_address url).
Proof. apply binary_of_bool. Qed.

Lemma has_at_symbol_binary (url : string) : binary (has_at_symbol url).
Proof. apply binary_of_bool. Qed.

Lemma get_url_length_binary (url : string) : binary (get_url_length url).
Proof. apply binary_of_bool. Qed.

Lemma get_web_traffic_binary (e : env) (domain : string) :
  binary (get_web_traffic e domain).
Proof. apply binary_of_bool. Qed.

Lemma count_nonneg (c : ascii) (s : string) : 0 <= count c s.
Proof.
  induction s as [|a s IH]; simpl; [lia|].
  destruct (Ascii.eqb a c); lia.
Qed.

(** A [try] whose handler returns 0 and whose body returns an indicator
    returns an indicator. *)
Lemma try_except_default (body : result Z) :
  (forall v, body = Return v -> binary v) ->
  exists v, try_except body (fun _ => Return 0) = Return v /\ binary v.
Proof.
  intros H. destruct body as [v|ex]; simpl.
  - exists v. split; [reflexivity | apply H; reflexivity].
  - exists 0. split; [reflexivity | left; reflexivity].
Qed.

Ltac binary_body :=
  repeat match goal with
         | |- forall _, _ => intro
         | H : bind_result ?r _ = Return _ |- _ =>
             destruct r; simpl in H; [|discriminate H]
         | H : Return _ = Return _ |- _ => inversion H; subst; clear H
         end;
  try apply binary_of_bool.

Lemma get_domain_age_returns (e : env) (domain : string) :
  exists v, get_domain_age e domain = Return v /\ binary v.
Proof. unfold get_domain_age. apply try_except_default. binary_body. Qed.

Lemma get_domain_end_period_returns (e : env) (domain : string) :
  exists v, get_domain_end_period e domain = Return v /\ binary v.
Proof. unfold get_domain_end_period. apply try_except_default. binary_body. Qed.

Lemma has_mouse_over_effect_returns (e : env) (url : string) :
  exists v, has_mouse_over_effect e url = Return v /\ binary v.
Proof. unfold has_mouse_over_effect. apply try_except_default. binary_body. Qed.

Lemma has_web_forwards_returns (e : env) (url : string) :
  exists v, has_web_forwards e url = Return v /\ binary v.
Proof. unfold has_web_forwards. apply try_except_default. binary_body. Qed.

(** A failed probe of the four that catch [Exception] yields 0. *)
Lemma probe_failure_defaults (e : env) (domain url : string) (ex1 ex2 : exn) :
  whois e domain = Raise ex1 ->
  (forall t, requests_get e url t = Raise ex2) ->
  get_domain_age e domain = Return 0 /\
  get_domain_end_period e domain = Return 0 /\
  has_mouse_over_effect e url = Return 0 /\
  has_web_forwards e url = Return 0.
Proof.
  intros Hw Hr.
  unfold get_domain_age, get_domain_end_period, has_mouse_over_effect, has_web_forwards.
  rewrite Hw, !Hr. simpl. repeat split.
Qed.

(** ** The DNS store *)

Lemma cache_get_binary (k : string) (c : cache) (v : Z) :
  cache_ok c -> cache_get k c = Some v -> binary v.
Proof.
  unfold cache_ok. induction c as [|[k' v'] c IH]; simpl; intros Hc Hg.
  - discriminate Hg.
  - inversion Hc as [|? ? Hv Hc']; subst.
    destruct (String.eqb k k').
    + inversion Hg; subst. exact Hv.
    + apply IH; assumption.
Qed.

Lemma cache_remove_ok (k : string) (c : cache) :
  cache_ok c -> cache_ok (cache_remove k c).
Proof.
  unfold cache_ok. induction c as [|[k' v'] c IH]; simpl; intros Hc.
  - constructor.
  - inversion Hc as [|? ? Hv Hc']; subst.
    destruct (String.eqb k k'); [apply IH; assumption|].
    constructor; [exact Hv | apply IH; assumption].
Qed.

Lemma firstn_ok (n : nat) (c : cache) : cache_ok c -> cache_ok (firstn n c).
Proof.
  unfold cache_ok. revert c. induction n as [|n IH]; intros c Hc; simpl.
  - constructor.
  - destruct c as [|kv c]; [constructor|].
    inversion Hc; subst. constructor; [assumption | apply IH; assumption].
Qed.

Lemma cache_remove_length_le (k : string) (c : cache) :
  (List.length (cache_remove k c) <= List.length c)%nat.
Proof.
  induction c as [|[k' v'] c IH]; simpl; [lia|].
  destruct (String.eqb k k'); simpl; lia.
Qed.

Lemma cache_remove_length_lt (k : string) (c : cache) (v : Z) :
  cache_get k c = Some v ->
  (S (List.length (cache_remove k c)) <= List.length c)%nat.
Proof.
  induction c as [|[k' v'] c IH]; simpl; intros Hg; [discriminate Hg|].
  destruct (String.eqb k k').
  - pose proof (cache_remove_length_le k c). lia.
  - simpl. specialize (IH Hg). lia.
Qed.

(** The store never holds more than [maxsize] entries. *)
Lemma lru_cache_bounded (f : string -> result Z) (k : string) (c : cache) :
  (List.length c <= maxsize)%nat ->
  (List.length (snd (lru_cache f k c)) <= maxsize)%nat.
Proof.
  intros Hlen. unfold lru_cache.
  destruct (cache_get k c) as [v|] eqn:Hg.
  - simpl. pose proof (cache_remove_length_lt k c v Hg). lia.
  - destruct (f k); cbn [snd]; [|exact Hlen].
    rewrite length_firstn. lia.
Qed.

(** A second lookup of a domain whose first lookup returned is served from
    the store, without a call to the resolver. *)
Lemma lru_cache_hit (f g : string -> result Z) (k : string) (c c' : cache) (v : Z) :
  lru_cache f k c = (Return v, c') ->
  fst (lru_cache g k c') = Return v.
Proof.
  unfold lru_cache. intros H.
  assert (Hget : cache_get k c' = Some v).
  { destruct (cache_get k c) as [w|] eqn:Hg.
    - inversion H; subst. simpl. rewrite String.eqb_refl. reflexivity.
    - destruct (f k) as [w|ex]; inversion H; subst.
      unfold maxsize. change (Z.to_nat 10000) with (S (Z.to_nat 9999)).
      simpl. rewrite String.eqb_refl. reflexivity. }
  rewrite Hget. reflexivity.
Qed.

(** The DNS probe returns an indicator and keeps the store well-formed,
    unless the resolver raises an exception that is not a [socket.error]
    on a domain that is not in the store. *)
Lemma check_dns_record_returns (e : env) (domain : string) (c : cache) :
  cache_ok c ->
  (forall ex, cache_get domain c = None ->
              gethostbyname e domain = Raise ex -> is_socket_error ex = true) ->
  exists v c', check_dns_record e domain c = (Return v, c') /\ binary v /\ cache_ok c'.
Proof.
  intros Hc Hex. unfold check_dns_record, lru_cache.
  destruct (cache_get domain c) as [v|] eqn:Hg.
  - exists v, ((domain, v) :: cache_remove domain c).
    pose proof (cache_get_binary _ _ _ Hc Hg) as Hv.
    repeat split; try assumption.
    constructor; [exact Hv | apply cache_remove_ok; exact Hc].
  - unfold check_dns_record_wrapped.
    destruct (gethostbyname e domain) as [ip|ex] eqn:Hr.
    + exists 1, (firstn maxsize ((domain, 1) :: c)).
      repeat split; [right; reflexivity|].
      apply firstn_ok. constructor; [right; reflexivity | exact Hc].
    + rewrite (Hex ex eq_refl eq_refl).
      exists 0, (firstn maxsize ((domain, 0) :: c)).
      repeat split; [left; reflexivity|].
      apply firstn_ok. constructor; [left; reflexivity | exact Hc].
Qed.

(** An exception of the resolver that is not a [socket.error] leaves the
    DNS probe. *)
Lemma check_dns_record_propagates (e : env) (domain : string) (c : cache) (ex : exn) :
  cache_get domain c = None ->
  gethostbyname e domain = Raise ex ->
  is_socket_error ex = false ->
  check_dns_record e domain c = (Raise ex, c).
Proof.
  intros Hg Hr Hs. unfold check_dns_record, lru_cache, check_dns_record_wrapped.
  rewrite Hg, Hr, Hs. reflexivity.
Qed.

(** ** The feature vector *)

(** What [extract_features] computes once the URL has been parsed: the
    eight lexical slots are read off the URL, and the rest of the run is
    the DNS probe followed by probes that always return. *)
Lemma extract_features_parsed (e : env) (url : string) (c : cache) (p : ParseResult) :
  urlparse (rstrip "/" url) = Return p ->
  exists v10 v11 v13 v15,
    binary v10 /\ binary v11 /\ binary v13 /\ binary v15 /\
    get_domain_age e (netloc p) = Return v10 /\
    get_domain_end_period e (netloc p) = Return v11 /\
    has_mouse_over_effect e (rstrip "/" url) = Return v13 /\
    has_web_forwards e (rstrip "/" url) = Return v15 /\
    extract_features e url c =
      match check_dns_record e (netloc p) c with
      | (Return v8, c') =>
          (Return [has_ip_address (rstrip "/" url);
                   has_at_symbol (rstrip "/" url);
                   get_url_length (rstrip "/" url);
                   (if String.eqb (path p) "/" then 0 else count "/" (path p));
                   (if contains "//" (path p) then 1 else 0);
                   (if contains "https" (netloc p) then 1 else 0);
                   (if in_list (netloc p)
                         ["bit.ly"; "goog.gl"; "tinyurl.com"; "ow.ly"; "t.co"]
                    then 1 else 0);
                   (if has_char "-" (netloc p) then 1 else 0);
                   v8;
                   get_web_traffic e (netloc p);
                   v10; v11; 0; v13; 1; v15], c')
      | (Raise ex, c') => (Raise ex, c')
      end.
Proof.
  intros Hp.
  destruct (get_domain_age_returns e (netloc p)) as (v10 & H10 & Hv10).
  destruct (get_domain_end_period_returns e (netloc p)) as (v11 & H11 & Hv11).
  destruct (has_mouse_over_effect_returns e (rstrip "/" url)) as (v13 & H13 & Hv13).
  destruct (has_web_forwards_returns e (rstrip "/" url)) as (v15 & H15 & Hv15).
  exists v10, v11, v13, v15.
  repeat (split; [assumption|]).
  unfold extract_features, bind, lift, ret,
    get_url_depth, has_redirection, has_https_in_domain, is_tiny_url,
    has_prefix_suffix, allows_right_click.
  rewrite Hp. cbn [bind_result].
  destruct (String.eqb (path p) "/");
    (destruct (check_dns_record e (netloc p) c) as [[v8|ex] c']; [|reflexivity];
     rewrite H10, H11, H13, H15; reflexivity).
Qed.

(** When the URL does not parse, [extract_features] raises what [urlparse]
    raises. *)
Lemma extract_features_unparsed (e : env) (url : string) (c : cache) (ex : exn) :
  urlparse (rstrip "/" url) = Raise ex ->
  extract_features e url c = (Raise ex, c).
Proof.
  intros Hp. unfold extract_features, bind, lift. rewrite Hp. reflexivity.
Qed.

Lemma rstrip_slashes (n : nat) : rstrip "/" (slashes n) = EmptyString.
Proof.
  induction n as [|n IH]; simpl; [reflexivity|]. rewrite IH. reflexivity.
Qed.

Lemma rstrip_app_slashes (url : string) (n : nat) :
  rstrip "/" (url ++ slashes n) = rstrip "/" url.
Proof.
  induction url as [|a url IH]; simpl.
  - apply rstrip_slashes.
  - rewrite IH. reflexivity.
Qed.

(** What [rstrip] leaves does not end in a slash. *)
Lemma rstrip_no_trailing_slash (url s : string) :
  rstrip "/" url <> (s ++ "/")%string.
Proof.
  revert s. induction url as [|a url IH]; intros s; simpl.
  - destruct s; discriminate.
  - destruct (rstrip "/" url) as [|b r] eqn:Hr.
    + destruct (Ascii.eqb a "/") eqn:Ha.
      * destruct s; discriminate.
      * destruct s as [|x s]; simpl.
        -- intros H. inversion H; subst. discriminate Ha.
        -- intros H. inversion H. destruct s; discriminate.
    + destruct s as [|x s]; simpl.
      * discriminate.
      * intros H. inversion H; subst. eapply IH. eassumption.
Qed.

(** [str.count] counts the occurrences of the character. *)
Lemma count_occurrences (c : ascii) (s : string) :
  count c s = Z.of_nat (count_occ ascii_dec (list_ascii_of_string s) c).
Proof.
  induction s as [|a s IH]; cbn [count list_ascii_of_string count_occ]; [reflexivity|].
  destruct (ascii_dec a c) as [->|Hne].
  - rewrite Ascii.eqb_refl, IH. lia.
  - apply Ascii.eqb_neq in Hne. rewrite Hne, IH. lia.
Qed.

(** What [get_url_depth] returns on a URL that parses. *)
Lemma get_url_depth_parsed (url : string) (p : ParseResult) :
  urlparse url = Return p ->
  get_url_depth url =
    Return (if String.eqb (path p) "/" then 0
            else Z.of_nat (slash_separators (path p))).
Proof.
  intros Hp. unfold get_url_depth, slash_separators. rewrite Hp. cbn [bind_result].
  destruct (String.eqb (path p) "/"); [reflexivity|].
  rewrite count_occurrences. reflexivity.
Qed.

(** C1, as the code has it. Take a DNS store that holds indicators only.
    For every URL that [urlparse] accepts after the trailing slashes are
    removed, and whose DNS lookup raises nothing but [socket.error],
    [extract_features] returns a list of exactly 16 integers. Every slot
    other than slot 3 holds 0 or 1. Slot 3 holds the path depth: what
    [get_url_depth] returns on the URL without its trailing slashes, which
    is the number of slashes of its path (0 for the root path) and so at
    least 0. The DNS store still holds indicators only. *)
Theorem extract_features_shape
    (e : env) (url : string) (c : cache) (p : ParseResult) :
  cache_ok c ->
  urlparse (rstrip "/" url) = Return p ->
  (forall ex, cache_get (netloc p) c = None ->
              gethostbyname e (netloc p) = Raise ex -> is_socket_error ex = true) ->
  exists f c',
    extract_features e url c = (Return f, c') /\
    List.length f = 16%nat /\
    (forall i, (i < 16)%nat -> i <> 3%nat -> binary (nth i f 0)) /\
    get_url_depth (rstrip "/" url) = Return (nth 3 f 0) /\
    nth 3 f 0 = (if String.eqb (path p) "/" then 0
                 else Z.of_nat (slash_separators (path p))) /\
    0 <= nth 3 f 0 /\
    cache_ok c'.
Proof.
  intros Hc Hp Hex.
  destruct (extract_features_parsed e url c p Hp)
    as (v10 & v11 & v13 & v15 & Hv10 & Hv11 & Hv13 & Hv15 & _ & _ & _ & _ & Heq).
  destruct (check_dns_record_returns e (netloc p) c Hc Hex)
    as (v8 & c' & Hd & Hv8 & Hc').
  rewrite Hd in Heq.
  eexists. exists c'. split; [exact Heq|].
  split; [reflexivity|].
  split; [|split; [|split; [|split; [|exact Hc']]]].
  - intros i Hi Hne.
    do 16 (destruct i as [|i];
           [ first [ exfalso; apply Hne; reflexivity
                   | cbn [nth]; first [ assumption | apply binary_of_bool
                                      | left; reflexivity | right; reflexivity ] ]
           | ]).
    exfalso. lia.
  - cbn [nth]. unfold get_url_depth. rewrite Hp. cbn [bind_result].
    destruct (String.eqb (path p) "/"); reflexivity.
  - cbn [nth]. unfold slash_separators.
    destruct (String.eqb (path p) "/"); [reflexivity | apply count_occurrences].
  - cbn [nth]. destruct (String.eqb (path p) "/"); [lia | apply count_nonneg].
Qed.

(** C6. Each of the eight lexical feature functions returns equal values
    on equal URL strings; and in any two runs of [extract_features] on the
    same URL, whatever the two environments and the two DNS stores hold,
    slots 0 to 7 agree. *)
Theorem lexical_features_deterministic (u1 u2 : string) :
  u1 = u2 ->
  (has_ip_address u1 = has_ip_address u2 /\
   has_at_symbol u1 = has_at_symbol u2 /\
   get_url_length u1 = get_url_length u2 /\
   get_url_depth u1 = get_url_depth u2 /\
   has_redirection u1 = has_redirection u2 /\
   has_https_in_domain u1 = has_https_in_domain u2 /\
   is_tiny_url u1 = is_tiny_url u2 /\
   has_prefix_suffix u1 = has_prefix_suffix u2) /\
  (forall e1 e2 c1 c2 f1 f2 c1' c2',
      extract_features e1 u1 c1 = (Return f1, c1') ->
      extract_features e2 u2 c2 = (Return f2, c2') ->
      firstn 8 f1 = firstn 8 f2).
Proof.
  intros ->. split; [repeat split|].
  intros e1 e2 c1 c2 f1 f2 c1' c2' H1 H2.
  destruct (urlparse (rstrip "/" u2)) as [p|ex] eqn:Hp.
  - destruct (extract_features_parsed e1 u2 c1 p Hp)
      as (? & ? & ? & ? & _ & _ & _ & _ & _ & _ & _ & _ & Heq1).
    destruct (extract_features_parsed e2 u2 c2 p Hp)
      as (? & ? & ? & ? & _ & _ & _ & _ & _ & _ & _ & _ & Heq2).
    rewrite Heq1 in H1. rewrite Heq2 in H2.
    destruct (check_dns_record e1 (netloc p) c1) as [[v|?] ?]; [|discriminate H1].
    destruct (check_dns_record e2 (netloc p) c2) as [[w|?] ?]; [|discriminate H2].
    inversion H1; inversion H2; subst. reflexivity.
  - rewrite (extract_features_unparsed e1 u2 c1 ex Hp) in H1. discriminate H1.
Qed.

(** C7. Take a URL that parses and whose domain is not in the DNS store, an
    environment in which the domain resolves, and the same environment with
    a resolver that fails on the domain with a [socket.error] (a timeout,
    say). Both runs of [extract_features] return a vector; slot 8 is 1 in
    the first and 0 in the second, and every other slot is the same in
    both. *)
Theorem dns_failure_isolated
    (e : env) (g : string -> result string) (url : string) (c : cache)
    (p : ParseResult) (ip : string) (ex : exn) :
  urlparse (rstrip "/" url) = Return p ->
  cache_get (netloc p) c = None ->
  gethostbyname e (netloc p) = Return ip ->
  g (netloc p) = Raise ex ->
  is_socket_error ex = true ->
  exists f_ok c_ok f c',
    extract_features e url c = (Return f_ok, c_ok) /\
    extract_features (with_gethostbyname e g) url c = (Return f, c') /\
    nth 8 f_ok 0 = 1 /\
    nth 8 f 0 = 0 /\
    (forall i, i <> 8%nat -> nth i f 0 = nth i f_ok 0).
Proof.
  intros Hp Hmiss Hok Hfail Hsock.
  destruct (extract_features_parsed e url c p Hp)
    as (v10 & v11 & v13 & v15 & _ & _ & _ & _ & H10 & H11 & H13 & H15 & Heq1).
  destruct (extract_features_parsed (with_gethostbyname e g) url c p Hp)
    as (w10 & w11 & w13 & w15 & _ & _ & _ & _ & G10 & G11 & G13 & G15 & Heq2).
  change (get_domain_age (with_gethostbyname e g) (netloc p))
    with (get_domain_age e (netloc p)) in G10.
  change (get_domain_end_period (with_gethostbyname e g) (netloc p))
    with (get_domain_end_period e (netloc p)) in G11.
  change (has_mouse_over_effect (with_gethostbyname e g) (rstrip "/" url))
    with (has_mouse_over_effect e (rstrip "/" url)) in G13.
  change (has_web_forwards (with_gethostbyname e g) (rstrip "/" url))
    with (has_web_forwards e (rstrip "/" url)) in G15.
  change (get_web_traffic (with_gethostbyname e g) (netloc p))
    with (get_web_traffic e (netloc p)) in Heq2.
  rewrite H10 in G10. rewrite H11 in G11. rewrite H13 in G13. rewrite H15 in G15.
  inversion G10; inversion G11; inversion G13; inversion G15; subst.
  unfold check_dns_record, lru_cache, check_dns_record_wrapped in Heq1, Heq2.
  rewrite Hmiss in Heq1, Heq2.
  rewrite Hok in Heq1.
  cbn [gethostbyname with_gethostbyname] in Heq2.
  rewrite Hfail, Hsock in Heq2.
  do 4 eexists.
  split; [exact Heq1|]. split; [exact Heq2|].
  split; [reflexivity|]. split; [reflexivity|].
  intros i Hne.
  do 16 (destruct i as [|i];
         [ first [ exfalso; apply Hne; reflexivity | reflexivity ] | ]).
  destruct i; reflexivity.
Qed.

(** C8, as the code has it. For every URL that [urlparse] accepts,
    [get_url_depth] returns the count of [/] separators in the path
    component, except that it returns 0 for the root path [/]; so it
    returns 0 when the path is empty or the root. Slot 3 of a vector that
    [extract_features] returns is that value for the URL without its
    trailing slashes. *)
Theorem get_url_depth_counts_slashes (url : string) :
  (forall p,
      urlparse url = Return p ->
      get_url_depth url =
        Return (if String.eqb (path p) "/" then 0
                else Z.of_nat (slash_separators (path p))) /\
      (path p = "" \/ path p = "/" -> get_url_depth url = Return 0)) /\
  (forall e c f c',
      extract_features e url c = (Return f, c') ->
      exists p',
        urlparse (rstrip "/" url) = Return p' /\
        nth 3 f 0 = (if String.eqb (path p') "/" then 0
                     else Z.of_nat (slash_separators (path p')))).
Proof.
  split.
  - intros p Hp. rewrite (get_url_depth_parsed url p Hp).
    split; [reflexivity|].
    intros [Hempty | Hroot].
    + rewrite Hempty. reflexivity.
    + rewrite Hroot. reflexivity.
  - intros e c f c' H.
    destruct (urlparse (rstrip "/" url)) as [p'|ex] eqn:Hp.
    + exists p'. split; [reflexivity|].
      destruct (extract_features_parsed e url c p' Hp)
        as (? & ? & ? & ? & _ & _ & _ & _ & _ & _ & _ & _ & Heq).
      rewrite Heq in H.
      destruct (check_dns_record e (netloc p') c) as [[v|?] ?]; [|discriminate H].
      inversion H; subst. cbn [nth]. unfold slash_separators.
      destruct (String.eqb (path p') "/"); [reflexivity | apply count_occurrences].
    + rewrite (extract_features_unparsed e url c ex Hp) in H. discriminate H.
Qed.

(** C9. [extract_features] removes every trailing [/] before it computes a
    feature: two URLs that differ only in the number of trailing slashes
    give the same outcome, feature vector and DNS store, which is that of
    the URL without them. *)
Theorem extract_features_trailing_slashes
    (e : env) (url : string) (n m : nat) (c : cache) :
  extract_features e (url ++ slashes n) c = extract_features e (url ++ slashes m) c /\
  extract_features e (url ++ slashes n) c = extract_features e (rstrip "/" url) c.
Proof.
  assert (Hidem : rstrip "/" (rstrip "/" url) = rstrip "/" url).
  { induction url as [|a url IH]; simpl; [reflexivity|].
    destruct (rstrip "/" url) as [|b r] eqn:Hr.
    - destruct (Ascii.eqb a "/") eqn:Ha; simpl; [reflexivity|].
      rewrite Ha. reflexivity.
    - simpl. simpl in IH. rewrite IH. reflexivity. }
  unfold extract_features.
  rewrite !rstrip_app_slashes, Hidem. split; reflexivity.
Qed.

(** C10. For every URL in which [urlparse] finds no network location,
    [has_https_in_domain], [is_tiny_url] and [has_prefix_suffix] return 0. *)
Theorem host_features_without_netloc (url : string) (p : ParseResult) :
  urlparse url = Return p ->
  netloc p = "" ->
  has_https_in_domain url = Return 0 /\
  is_tiny_url url = Return 0 /\
  has_prefix_suffix url = Return 0.
Proof.
  intros Hp Hn.
  unfold has_https_in_domain, is_tiny_url, has_prefix_suffix.
  rewrite Hp. cbn [bind_result]. rewrite Hn. repeat split.
Qed.

(** ** The IP-literal pattern *)

Lemma has_char_cons (c a : ascii) (s : string) :
  has_char c s = true -> has_char c (String a s) = true.
Proof.
  unfold has_char. simpl. destruct (Ascii.eqb a c); [reflexivity|].
  destruct (index_of c s); [reflexivity | discriminate].
Qed.

(** A matcher hands to its continuation a position further to the right:
    a character that occurs in the rest of the text there occurs in the
    text the matcher started on. *)
Definition advances (c : ascii) (step : cont -> cont) : Prop :=
  forall k prev s,
    step k prev s = true ->
    exists prev' s', k prev' s' = true /\ (has_char c s' = true -> has_char c s = true).

Lemma rep_advances (c : ascii) (step : cont -> cont) (hi lo : nat) :
  advances c step -> advances c (rep step hi lo).
Proof.
  intros Hstep. revert lo. induction hi as [|hi IH]; intros lo k prev s H; simpl in H.
  - exists prev, s. split; [exact H | auto].
  - assert (Hgo : forall lo', step (rep step hi lo' k) prev s = true ->
              exists prev' s', k prev' s' = true /\
                               (has_char c s' = true -> has_char c s = true)).
    { intros lo' H1. apply Hstep in H1. destruct H1 as (p1 & s1 & H1 & Himp1).
      apply IH in H1. destruct H1 as (p2 & s2 & H2 & Himp2).
      exists p2, s2. split; [exact H2 | auto]. }
    destruct lo as [|lo].
    + apply orb_true_iff in H. destruct H as [H | H].
      * apply (Hgo O H).
      * exists prev, s. split; [exact H | auto].
    + apply (Hgo lo H).
Qed.

Lemma matches_advances (c : ascii) (r : regex) : advances c (matches r).
Proof.
  induction r as [a | lo hi | r1 IH1 r2 IH2 | lo hi r IH | ]; intros k prev s H.
  - simpl in H. destruct s as [|b s]; [discriminate H|].
    apply andb_true_iff in H. destruct H as [_ H].
    exists (Some b), s. split; [exact H | apply has_char_cons].
  - simpl in H. destruct s as [|b s]; [discriminate H|].
    apply andb_true_iff in H. destruct H as [_ H].
    exists (Some b), s. split; [exact H | apply has_char_cons].
  - cbn [matches] in H. apply IH1 in H. destruct H as (p1 & s1 & H1 & Himp1).
    apply IH2 in H1. destruct H1 as (p2 & s2 & H2 & Himp2).
    exists p2, s2. split; [exact H2 | auto].
  - cbn [matches] in H. revert H. apply (rep_advances c _ hi lo). exact IH.
  - simpl in H. apply andb_true_iff in H. destruct H as [_ H].
    exists prev, s. split; [exact H | auto].
Qed.

Lemma cat_reaches_literal (c : ascii) (r1 r2 r3 rest : regex)
    (k : cont) (prev : option ascii) (s : string) :
  matches (Cat r1 (Cat r2 (Cat r3 (Cat (Lit c) rest)))) k prev s = true ->
  has_char c s = true.
Proof.
  intros H.
  change (matches r1 (matches r2 (matches r3 (matches (Cat (Lit c) rest) k))) prev s = true) in H.
  apply (matches_advances c r1) in H. destruct H as (p1 & s1 & H & Himp1).
  apply (matches_advances c r2) in H. destruct H as (p2 & s2 & H & Himp2).
  apply (matches_advances c r3) in H. destruct H as (p3 & s3 & H & Himp3).
  apply Himp1, Himp2, Himp3.
  destruct s3 as [|b s3]; [discriminate H|].
  cbn [matches] in H. apply andb_true_iff in H. destruct H as [Hb _].
  unfold has_char. simpl. rewrite Hb. reflexivity.
Qed.

Lemma ip_pattern_needs_brace (k : cont) (prev : option ascii) (s : string) :
  matches ip_pattern k prev s = true -> has_char "{" s = true.
Proof.
  change ip_pattern with
    (Cat AtBoundary
       (Cat (MaxRepeat 3 3 (Cat (MaxRepeat 1 3 (InRange "0" "9")) (Lit ".")))
          (Cat (InRange "0" "9")
             (Cat (Lit "{") (cat_all [Lit "1"; Lit "-"; Lit "3"; Lit "}"] AtBoundary))))).
  apply cat_reaches_literal.
Qed.

(** The pattern of [has_ip_address] matches only in a text that contains an
    opening brace: on every other URL the feature is 0, dotted quad or
    not. *)
Lemma has_ip_address_needs_brace (url : string) :
  has_char "{" url = false -> has_ip_address url = 0.
Proof.
  intros Hno. unfold has_ip_address, re_search.
  assert (Hs : forall s prev, has_char "{" s = false -> search_from ip_pattern prev s = false).
  { induction s as [|a s IH]; intros prev Hs; cbn [search_from].
    - destruct (matches ip_pattern (fun _ _ => true) prev "") eqn:Hm; [|reflexivity].
      apply ip_pattern_needs_brace in Hm. rewrite Hm in Hs. discriminate Hs.
    - destruct (matches ip_pattern (fun _ _ => true) prev (String a s)) eqn:Hm.
      + apply ip_pattern_needs_brace in Hm. rewrite Hm in Hs. discriminate Hs.
      + cbn [orb]. apply IH.
        destruct (has_char "{" s) eqn:Hc; [|reflexivity].
        apply (has_char_cons _ a) in Hc. rewrite Hc in Hs. discriminate Hs. }
  rewrite (Hs url None Hno). reflexivity.
Qed.

(** C2, on the code. On the URL of the end-to-end scenario, whose host
    [192.168.1.1] is a dotted quad, [has_ip_address] returns 0: the pattern
    ends in the literal text [{1-3}], and it does match the same host once
    that text and a word character follow it. *)
Theorem has_ip_address_misses_dotted_quad :
  has_ip_address "http://192.168.1.1/@login" = 0 /\
  has_ip_address "http://192.168.1.1{1-3}x/@login" = 1.
Proof. split; vm_compute; reflexivity. Qed.

(** ** Exceptions that leave the probe layer *)

Lemma extract_features_idna_failure :
  extract_features offline_env "http://a..b/" [] = (Raise UnicodeError, []).
Proof. vm_compute. reflexivity. Qed.

(** C4, on the code. The host [a..b] has an empty label, and the resolver
    call raises [UnicodeError], which is not a [socket.error]:
    [check_dns_record] does not map it to 0, and it leaves
    [extract_features] as raised. *)
Theorem check_dns_record_leaks_unicode_error :
  check_dns_record offline_env "a..b" [] = (Raise UnicodeError, []) /\
  extract_features offline_env "http://a..b/" [] = (Raise UnicodeError, []).
Proof. split; [reflexivity | apply extract_features_idna_failure]. Qed.

(** ** Scoring *)

(** [make_prediction_and_explain] never raises: it returns a tuple or
    [None]. *)
Lemma make_prediction_and_explain_never_raises
    (a : artifacts) (e : env) (url : string) (c : cache) :
  exists r c', make_prediction_and_explain a e url c = (Return r, c').
Proof.
  unfold make_prediction_and_explain.
  destruct (make_prediction_and_explain_body a e url c) as [[v|ex] c'];
    eexists; eexists; reflexivity.
Qed.

(** With a feature vector and artifacts that do not raise, the tuple is
    returned and holds the feature vector. *)
Lemma make_prediction_and_explain_returns
    (a : artifacts) (e : env) (url : string) (c c' : cache) (f : list Z)
    (xs pr sh : ndarray a) (p00 : scalar a) :
  extract_features e url c = (Return f, c') ->
  scaler_transform a f = Return xs ->
  model_predict a xs = Return pr ->
  explainer_shap_values a xs = Return (ShapArray sh) ->
  ndim a sh <> 3%nat ->
  item_0_0 a pr = Return p00 ->
  make_prediction_and_explain a e url c = (Return (Some (p00, f, sh, xs)), c').
Proof.
  intros Hf Hx Hp Hs Hn Hi.
  unfold make_prediction_and_explain, make_prediction_and_explain_body, bind, lift, ret.
  rewrite Hf, Hx, Hp, Hs.
  apply Nat.eqb_neq in Hn. rewrite Hn, Hi. reflexivity.
Qed.

(** C3, on the code. For the URL [http://a..b/], which [urlparse] accepts,
    [make_prediction_and_explain] raises nothing but produces no
    probability, feature vector or explanation: the [UnicodeError] that
    leaves [check_dns_record] ends the [try] block, and the result is
    [None], whatever the classifier artifacts are. *)
Theorem make_prediction_and_explain_no_result (a : artifacts) :
  urlparse "http://a..b" = Return (mkParseResult "http" "a..b" "" "" "" "") /\
  make_prediction_and_explain a offline_env "http://a..b/" [] = (Return None, []).
Proof.
  split; [vm_compute; reflexivity|].
  unfold make_prediction_and_explain, make_prediction_and_explain_body, bind.
  rewrite extract_features_idna_failure. reflexivity.
Qed.

(** * Further properties *)

(** ** The IP-literal pattern, continued *)

Lemma contains_cons (sub : string) (a : ascii) (s : string) :
  contains sub s = true -> contains sub (String a s) = true.
Proof.
  intros H. cbn [contains]. rewrite H. apply orb_true_r.
Qed.

Lemma rep_reaches (sub : string) (step : cont -> cont) (hi lo : nat) :
  (forall k prev s,
      step k prev s = true ->
      exists prev' s', k prev' s' = true /\
                       (contains sub s' = true -> contains sub s = true)) ->
  forall k prev s,
    rep step hi lo k prev s = true ->
    exists prev' s', k prev' s' = true /\
                     (contains sub s' = true -> contains sub s = true).
Proof.
  intros Hstep. revert lo. induction hi as [|hi IH]; intros lo k prev s H; simpl in H.
  - exists prev, s. split; [exact H | auto].
  - assert (Hgo : forall lo', step (rep step hi lo' k) prev s = true ->
              exists prev' s', k prev' s' = true /\
                               (contains sub s' = true -> contains sub s = true)).
    { intros lo' H1. apply Hstep in H1. destruct H1 as (p1 & s1 & H1 & Himp1).
      apply IH in H1. destruct H1 as (p2 & s2 & H2 & Himp2).
      exists p2, s2. split; [exact H2 | auto]. }
    destruct lo as [|lo].
    + apply orb_true_iff in H. destruct H as [H | H].
      * apply (Hgo O H).
      * exists prev, s. split; [exact H | auto].
    + apply (Hgo lo H).
Qed.

Lemma matches_reaches (sub : string) (r : regex) (k : cont)
    (prev : option ascii) (s : string) :
  matches r k prev s = true ->
  exists prev' s', k prev' s' = true /\
                   (contains sub s' = true -> contains sub s = true).
Proof.
  revert k prev s.
  induction r as [a | lo hi | r1 IH1 r2 IH2 | lo hi r IH | ]; intros k prev s H.
  - simpl in H. destruct s as [|b s]; [discriminate H|].
    apply andb_true_iff in H. destruct H as [_ H].
    exists (Some b), s. split; [exact H | apply contains_cons].
  - simpl in H. destruct s as [|b s]; [discriminate H|].
    apply andb_true_iff in H. destruct H as [_ H].
    exists (Some b), s. split; [exact H | apply contains_cons].
  - cbn [matches] in H. apply IH1 in H. destruct H as (p1 & s1 & H1 & Himp1).
    apply IH2 in H1. destruct H1 as (p2 & s2 & H2 & Himp2).
    exists p2, s2. split; [exact H2 | auto].
  - cbn [matches] in H. revert H. apply (rep_reaches sub _ hi lo). exact IH.
  - simpl in H. apply andb_true_iff in H. destruct H as [_ H].
    exists prev, s. split; [exact H | auto].
Qed.

(** Where the pattern matches, the text holds the five characters [{1-3}]
    and a word character right after them. *)
Lemma ip_pattern_needs_literal (k : cont) (prev : option ascii) (s : string) :
  matches ip_pattern k prev s = true -> contains "{1-3}" s = true.
Proof.
  change ip_pattern with
    (Cat AtBoundary
       (Cat (MaxRepeat 3 3 (Cat (MaxRepeat 1 3 (InRange "0" "9")) (Lit ".")))
          (Cat (InRange "0" "9")
             (cat_all [Lit "{"; Lit "1"; Lit "-"; Lit "3"; Lit "}"] AtBoundary)))).
  intros H.
  change (matches AtBoundary
            (matches (MaxRepeat 3 3 (Cat (MaxRepeat 1 3 (InRange "0" "9")) (Lit ".")))
               (matches (InRange "0" "9")
                  (matches (cat_all [Lit "{"; Lit "1"; Lit "-"; Lit "3"; Lit "}"] AtBoundary) k)))
            prev s = true) in H.
  apply (matches_reaches "{1-3}") in H. destruct H as (p1 & s1 & H & Himp1).
  apply (matches_reaches "{1-3}") in H. destruct H as (p2 & s2 & H & Himp2).
  apply (matches_reaches "{1-3}") in H. destruct H as (p3 & s3 & H & Himp3).
  apply Himp1, Himp2, Himp3.
  cbn [cat_all matches] in H.
  repeat match type of H with
         | match ?t with EmptyString => _ | String _ _ => _ end = true =>
             destruct t; [discriminate H|]
         | (_ && _)%bool = true =>
             let Hc := fresh "Hc" in
             apply andb_true_iff in H; destruct H as [Hc H];
             apply Ascii.eqb_eq in Hc; subst
         end.
  cbn [contains]. apply orb_true_iff. left. destruct s3; reflexivity.
Qed.

(** X1. [has_ip_address] returns 0 on every URL that does not hold the
    literal text [{1-3}], whatever dotted quads it holds. *)
Theorem has_ip_address_needs_literal (url : string) :
  contains "{1-3}" url = false -> has_ip_address url = 0.
Proof.
  intros Hno. unfold has_ip_address, re_search.
  assert (Hs : forall s prev, contains "{1-3}" s = false ->
                              search_from ip_pattern prev s = false).
  { induction s as [|a s IH]; intros prev Hs; cbn [search_from].
    - destruct (matches ip_pattern (fun _ _ => true) prev "") eqn:Hm; [|reflexivity].
      apply ip_pattern_needs_literal in Hm. rewrite Hm in Hs. discriminate Hs.
    - destruct (matches ip_pattern (fun _ _ => true) prev (String a s)) eqn:Hm.
      + apply ip_pattern_needs_literal in Hm. rewrite Hm in Hs. discriminate Hs.
      + cbn [orb]. apply IH.
        destruct (contains "{1-3}" s) eqn:Hc; [|reflexivity].
        apply (contains_cons _ a) in Hc. rewrite Hc in Hs. discriminate Hs. }
  rewrite (Hs url None Hno). reflexivity.
Qed.

(** ** Relations between lexical features *)

Lemma contains_double_slash_count (s : string) :
  contains "//" s = true -> 2 <= count "/" s.
Proof.
  induction s as [|a s IH]; cbn [contains]; intros H.
  - discriminate H.
  - apply orb_true_iff in H. destruct H as [H | H].
    + cbn [prefix] in H.
      destruct (Ascii.ascii_dec "/" a) as [<-|]; [|discriminate H].
      destruct s as [|b s]; [discriminate H|].
      cbn [prefix] in H.
      destruct (Ascii.ascii_dec "/" b) as [<-|]; [|discriminate H].
      cbn [count]. rewrite Ascii.eqb_refl.
      pose proof (count_nonneg "/" s). lia.
    + specialize (IH H). cbn [count].
      destruct (Ascii.eqb a "/"); lia.
Qed.

(** X2. When [has_redirection] returns 1, the path holds two adjacent
    slashes, and [get_url_depth] returns at least 2. *)
Theorem redirection_implies_depth (url : string) :
  has_redirection url = Return 1 ->
  exists d, get_url_depth url = Return d /\ 2 <= d.
Proof.
  unfold has_redirection, get_url_depth.
  destruct (urlparse url) as [p|ex]; cbn [bind_result]; [|discriminate].
  destruct (contains "//" (path p)) eqn:Hc; [|discriminate].
  intros _.
  destruct (String.eqb (path p) "/") eqn:Hroot.
  - apply String.eqb_eq in Hroot. rewrite Hroot in Hc. discriminate Hc.
  - exists (count "/" (path p)). split; [reflexivity|].
    apply contains_double_slash_count. exact Hc.
Qed.

(** X3. A host on the shortener list holds neither a hyphen nor the text
    [https]: when [is_tiny_url] returns 1, [has_https_in_domain] and
    [has_prefix_suffix] return 0. *)
Theorem tiny_url_excludes_host_flags (url : string) :
  is_tiny_url url = Return 1 ->
  has_https_in_domain url = Return 0 /\ has_prefix_suffix url = Return 0.
Proof.
  unfold is_tiny_url, has_https_in_domain, has_prefix_suffix.
  destruct (urlparse url) as [p|ex]; cbn [bind_result]; [|discriminate].
  unfold in_list. cbn [existsb].
  repeat match goal with
         | |- context [String.eqb (netloc p) ?t] =>
             destruct (String.eqb_spec (netloc p) t) as [->|_];
             [intros _; split; reflexivity|]
         end.
  cbn [orb]. discriminate.
Qed.

(** ** The feature vector, continued *)

(** X4. Whenever [extract_features] returns, with no assumption on the DNS
    store or on the environment, the vector has 16 entries, the reserved
    slot 12 holds 0 and the right-click slot 14 holds 1. *)
Theorem extract_features_reserved_slots
    (e : env) (url : string) (c c' : cache) (f : list Z) :
  extract_features e url c = (Return f, c') ->
  List.length f = 16%nat /\ nth 12 f 0 = 0 /\ nth 14 f 0 = 1.
Proof.
  intros H.
  destruct (urlparse (rstrip "/" url)) as [p|ex] eqn:Hp.
  - destruct (extract_features_parsed e url c p Hp)
      as (? & ? & ? & ? & _ & _ & _ & _ & _ & _ & _ & _ & Heq).
    rewrite Heq in H.
    destruct (check_dns_record e (netloc p) c) as [[v|?] ?]; [|discriminate H].
    inversion H; subst. repeat split.
  - rewrite (extract_features_unparsed e url c ex Hp) in H. discriminate H.
Qed.

(** X5. Without network (the resolver fails with a [socket.error] on a
    domain that is not in the store, the WHOIS lookup raises, every fetch
    raises) [extract_features] still returns, and the five slots of the
    network probes, 8, 10, 11, 13 and 15, hold 0. *)
Theorem extract_features_without_network
    (e : env) (url : string) (c : cache) (p : ParseResult) (exd exw exr : exn) :
  urlparse (rstrip "/" url) = Return p ->
  cache_get (netloc p) c = None ->
  gethostbyname e (netloc p) = Raise exd ->
  is_socket_error exd = true ->
  whois e (netloc p) = Raise exw ->
  (forall t, requests_get e (rstrip "/" url) t = Raise exr) ->
  exists f c',
    extract_features e url c = (Return f, c') /\
    nth 8 f 0 = 0 /\ nth 10 f 0 = 0 /\ nth 11 f 0 = 0 /\
    nth 13 f 0 = 0 /\ nth 15 f 0 = 0.
Proof.
  intros Hp Hmiss Hd Hs Hw Hr.
  destruct (extract_features_parsed e url c p Hp)
    as (v10 & v11 & v13 & v15 & _ & _ & _ & _ & H10 & H11 & H13 & H15 & Heq).
  destruct (probe_failure_defaults e (netloc p) (rstrip "/" url) exw exr Hw Hr)
    as (G10 & G11 & G13 & G15).
  rewrite G10 in H10. rewrite G11 in H11. rewrite G13 in H13. rewrite G15 in H15.
  inversion H10; inversion H11; inversion H13; inversion H15; subst.
  unfold check_dns_record, lru_cache, check_dns_record_wrapped in Heq.
  rewrite Hmiss, Hd, Hs in Heq.
  do 2 eexists. split; [exact Heq|]. repeat split.
Qed.

(** ** The DNS store, continued *)

Lemma cache_get_remove_other (k k2 : string) (c : cache) :
  k2 <> k -> cache_get k2 (cache_remove k c) = cache_get k2 c.
Proof.
  intros Hne. induction c as [|[k' v'] c IH]; simpl; [reflexivity|].
  destruct (String.eqb_spec k k') as [<-|Hk].
  - rewrite IH. destruct (String.eqb_spec k2 k); [contradiction | reflexivity].
  - simpl. rewrite IH. reflexivity.
Qed.

Lemma extract_features_store (e : env) (url : string) (c : cache) :
  snd (extract_features e url c) = c \/
  exists p, urlparse (rstrip "/" url) = Return p /\
            snd (extract_features e url c) = snd (check_dns_record e (netloc p) c).
Proof.
  destruct (urlparse (rstrip "/" url)) as [p|ex] eqn:Hp.
  - right. exists p. split; [reflexivity|].
    destruct (extract_features_parsed e url c p Hp)
      as (? & ? & ? & ? & _ & _ & _ & _ & _ & _ & _ & _ & Heq).
    rewrite Heq.
    destruct (check_dns_record e (netloc p) c) as [[v|?] ?]; reflexivity.
  - left. rewrite (extract_features_unparsed e url c ex Hp). reflexivity.
Qed.

(** X6. A run of [extract_features], returning or raising, leaves at most
    [maxsize] entries in a DNS store that held at most [maxsize]. *)
Theorem extract_features_store_bounded (e : env) (url : string) (c : cache) :
  (List.length c <= maxsize)%nat ->
  (List.length (snd (extract_features e url c)) <= maxsize)%nat.
Proof.
  intros Hlen.
  destruct (extract_features_store e url c) as [-> | (p & _ & ->)]; [exact Hlen|].
  apply lru_cache_bounded. exact Hlen.
Qed.

(** X7. The DNS slot is memoised across runs: when a run on a URL returns,
    a later run on the same URL from the store it left holds the same value
    in slot 8, whatever the resolver of the later environment answers. *)
Theorem extract_features_dns_slot_memoised
    (e1 e2 : env) (url : string) (c c1 c2 : cache) (f1 f2 : list Z) :
  extract_features e1 url c = (Return f1, c1) ->
  extract_features e2 url c1 = (Return f2, c2) ->
  nth 8 f2 0 = nth 8 f1 0.
Proof.
  intros H1 H2.
  destruct (urlparse (rstrip "/" url)) as [p|ex] eqn:Hp.
  - destruct (extract_features_parsed e1 url c p Hp)
      as (? & ? & ? & ? & _ & _ & _ & _ & _ & _ & _ & _ & Heq1).
    destruct (extract_features_parsed e2 url c1 p Hp)
      as (? & ? & ? & ? & _ & _ & _ & _ & _ & _ & _ & _ & Heq2).
    rewrite Heq1 in H1. rewrite Heq2 in H2.
    destruct (check_dns_record e1 (netloc p) c) as [[v|?] d1] eqn:Hd1; [|discriminate H1].
    inversion H1; subst.
    pose proof (lru_cache_hit _ (check_dns_record_wrapped e2) _ _ _ _ Hd1) as Hhit.
    fold (check_dns_record e2 (netloc p)) in Hhit.
    destruct (check_dns_record e2 (netloc p) c1) as [[w|?] d2]; [|discriminate H2].
    inversion H2; subst. simpl in Hhit. inversion Hhit. reflexivity.
  - rewrite (extract_features_unparsed e1 url c ex Hp) in H1. discriminate H1.
Qed.

(** X8. [check_dns_record] raises only on a domain that is not in the store
    and on which the resolver raises an exception that is not a
    [socket.error]; it then raises that exception and stores nothing. *)
Theorem check_dns_record_raises_only_on
    (e : env) (domain : string) (c c' : cache) (ex : exn) :
  check_dns_record e domain c = (Raise ex, c') ->
  c' = c /\ cache_get domain c = None /\
  gethostbyname e domain = Raise ex /\ is_socket_error ex = false.
Proof.
  unfold check_dns_record, lru_cache, check_dns_record_wrapped.
  destruct (cache_get domain c) as [v|]; [discriminate|].
  destruct (gethostbyname e domain) as [ip|ex']; [discriminate|].
  destruct (is_socket_error ex') eqn:Hs; [discriminate|].
  intros H. inversion H; subst. repeat split. exact Hs.
Qed.

Lemma firstn_drops_last {A : Type} (x y : A) (l : list A) (n : nat) :
  List.length (l ++ [y])%list = n ->
  firstn n (x :: l ++ [y])%list = x :: l.
Proof.
  intros <-. rewrite length_app. cbn [List.length].
  replace (List.length l + 1)%nat with (S (List.length l)) by lia.
  cbn [firstn]. f_equal.
  rewrite firstn_app, firstn_all, Nat.sub_diag. cbn [firstn].
  apply app_nil_r.
Qed.

(** X9. When the store is full and the domain is not in it, a lookup that
    returns puts the domain in front and drops the entry at the back, the
    least recently used one. *)
Theorem check_dns_record_evicts_oldest
    (e : env) (domain : string) (c0 c' : cache) (oldest : string * Z) (v : Z) :
  List.length (c0 ++ [oldest])%list = maxsize ->
  cache_get domain (c0 ++ [oldest])%list = None ->
  check_dns_record e domain (c0 ++ [oldest])%list = (Return v, c') ->
  c' = (domain, v) :: c0.
Proof.
  intros Hlen Hmiss H.
  unfold check_dns_record, lru_cache in H. rewrite Hmiss in H.
  destruct (check_dns_record_wrapped e domain) as [w|?]; [|discriminate H].
  rewrite (firstn_drops_last _ _ _ _ Hlen) in H.
  injection H as Hv Hc. subst. reflexivity.
Qed.

(** X10. A lookup of one domain does not change what the store holds for
    another, as long as the store is not full: a hit only moves an entry,
    a miss only adds one, a raised exception changes nothing. *)
Theorem check_dns_record_keeps_others
    (e : env) (domain other : string) (c : cache) :
  (List.length c < maxsize)%nat ->
  other <> domain ->
  cache_get other (snd (check_dns_record e domain c)) = cache_get other c.
Proof.
  intros Hlen Hne. unfold check_dns_record, lru_cache.
  destruct (cache_get domain c) as [v|].
  - cbn [snd cache_get].
    destruct (String.eqb_spec other domain); [contradiction|].
    apply cache_get_remove_other. exact Hne.
  - destruct (check_dns_record_wrapped e domain) as [w|?]; cbn [snd]; [|reflexivity].
    rewrite firstn_all2 by (cbn [List.length]; lia).
    cbn [cache_get].
    destruct (String.eqb_spec other domain); [contradiction | reflexivity].
Qed.

(** ** Registration dates *)

(** Whole days against a threshold: [timedelta.days >= n] holds exactly
    when the difference is at least [n] times 24 hours. *)
Lemma days_threshold (td n : Z) :
  (days td >=? n) = (td >=? n * 86400000000).
Proof.
  unfold days. change (86400 * 1000000) with 86400000000.
  rewrite !Z.geb_leb.
  destruct (Z.leb_spec n (td / 86400000000)) as [H1|H1];
    destruct (Z.leb_spec (n * 86400000000) td) as [H2|H2]; try reflexivity; exfalso.
  - assert (td / 86400000000 < n) by (apply Z.div_lt_upper_bound; lia). lia.
  - assert (n <= td / 86400000000) by (apply Z.div_le_lower_bound; lia). lia.
Qed.

(** X11. When the WHOIS record holds a naive creation date, alone or first
    in a list, [get_domain_age] returns 1 exactly when the domain was
    created at least 365 times 24 hours before now; a creation date in the
    future gives 0. *)
Theorem get_domain_age_threshold
    (e : env) (domain : string) (w : WhoisEntry) (v : pyval) (created : Z) :
  whois e domain = Return w ->
  creation_date w = Return v ->
  first_if_list v = Return (DDatetime false created) ->
  get_domain_age e domain =
    Return (if datetime_now e - created >=? 365 * 86400000000 then 1 else 0).
Proof.
  intros Hw Hc Hf. unfold get_domain_age.
  rewrite Hw. cbn [bind_result]. rewrite Hc. cbn [bind_result].
  rewrite Hf. cbn [bind_result now datetime_sub Bool.eqb try_except].
  rewrite days_threshold. reflexivity.
Qed.

(** X12. When the WHOIS record holds a naive expiration date, alone or
    first in a list, [get_domain_end_period] returns 1 exactly when the
    registration runs for at least 180 times 24 hours from now; an expired
    registration gives 0. *)
Theorem get_domain_end_period_threshold
    (e : env) (domain : string) (w : WhoisEntry) (v : pyval) (expires : Z) :
  whois e domain = Return w ->
  expiration_date w = Return v ->
  first_if_list v = Return (DDatetime false expires) ->
  get_domain_end_period e domain =
    Return (if expires - datetime_now e >=? 180 * 86400000000 then 1 else 0).
Proof.
  intros Hw Hc Hf. unfold get_domain_end_period.
  rewrite Hw. cbn [bind_result]. rewrite Hc. cbn [bind_result].
  rewrite Hf. cbn [bind_result now datetime_sub Bool.eqb try_except].
  rewrite days_threshold. reflexivity.
Qed.

(** X13. A date field that does not give a naive [datetime] (the attribute
    is missing, it holds [None], a string, a timezone-aware [datetime] or
    an empty list) makes the probe that reads it return 0, however old the
    domain is. *)
Theorem registration_date_unusable
    (e : env) (domain : string) (w : WhoisEntry) :
  whois e domain = Return w ->
  ((forall t, bind_result (creation_date w) first_if_list <> Return (DDatetime false t)) ->
   get_domain_age e domain = Return 0) /\
  ((forall t, bind_result (expiration_date w) first_if_list <> Return (DDatetime false t)) ->
   get_domain_end_period e domain = Return 0).
Proof.
  intros Hw. unfold get_domain_age, get_domain_end_period.
  rewrite Hw. cbn [bind_result].
  split; intros Hbad.
  - destruct (creation_date w) as [v|?]; cbn [bind_result try_except] in *; [|reflexivity].
    destruct (first_if_list v) as [[| s | [|] t]|?];
      cbn [bind_result try_except now datetime_sub Bool.eqb]; try reflexivity.
    exfalso. apply (Hbad t). reflexivity.
  - destruct (expiration_date w) as [v|?]; cbn [bind_result try_except] in *; [|reflexivity].
    destruct (first_if_list v) as [[| s | [|] t]|?];
      cbn [bind_result try_except now datetime_sub Bool.eqb]; try reflexivity.
    exfalso. apply (Hbad t). reflexivity.
Qed.

(** ** The ranking table *)

(** X14. [get_web_traffic] returns 1 exactly when some row of the ranking
    table holds the domain as a string cell, in whatever column; with an
    empty table it returns 0 for every domain. *)
Theorem get_web_traffic_membership (e : env) (domain : string) :
  (get_web_traffic e domain = 1 <->
   exists row, List.In row (ranked_domains_values e) /\ List.In (CellStr domain) row) /\
  (ranked_domains_values e = [] -> get_web_traffic e domain = 0).
Proof.
  unfold get_web_traffic. split.
  - destruct (existsb (existsb (fun x => cell_eq_str x domain))
                (ranked_domains_values e)) eqn:Hex.
    + split; [intros _|reflexivity].
      apply existsb_exists in Hex. destruct Hex as (row & Hrow & Hcell).
      apply existsb_exists in Hcell. destruct Hcell as (x & Hx & Heq).
      exists row. split; [exact Hrow|].
      destruct x as [n | s |]; simpl in Heq; try discriminate Heq.
      apply String.eqb_eq in Heq. subst. exact Hx.
    + split; [discriminate|].
      intros (row & Hrow & Hcell). exfalso.
      assert (Ht : existsb (existsb (fun x => cell_eq_str x domain))
                     (ranked_domains_values e) = true).
      { apply existsb_exists. exists row. split; [exact Hrow|].
        apply existsb_exists. exists (CellStr domain). split; [exact Hcell|].
        simpl. apply String.eqb_refl. }
      rewrite Ht in Hex. discriminate Hex.
  - intros ->. reflexivity.
Qed.

(** ** Scoring, continued *)

(** X15. A tuple returned by [make_prediction_and_explain] is consistent:
    its feature vector is the one [extract_features] returned, its scaled
    vector is the scaler's image of it, its probability is entry [0][0] of
    the classifier's prediction on the scaled vector, and its explanation
    is the explainer's output on the same scaled vector (the first element
    when that is a list), squeezed when it has three dimensions. *)
Theorem make_prediction_and_explain_tuple
    (a : artifacts) (e : env) (url : string) (c c' : cache)
    (p00 : scalar a) (f : list Z) (sh xs : ndarray a) :
  make_prediction_and_explain a e url c = (Return (Some (p00, f, sh, xs)), c') ->
  extract_features e url c = (Return f, c') /\
  scaler_transform a f = Return xs /\
  (exists pr, model_predict a xs = Return pr /\ item_0_0 a pr = Return p00) /\
  (exists out sh0,
      explainer_shap_values a xs = Return out /\
      (out = ShapArray sh0 \/ exists rest, out = ShapList (sh0 :: rest)) /\
      (if Nat.eqb (ndim a sh0) 3 then squeeze_last a sh0 = Return sh else sh0 = sh)).
Proof.
  unfold make_prediction_and_explain, make_prediction_and_explain_body, bind, lift, ret.
  destruct (extract_features e url c) as [[f0|?] c0] eqn:He; [|discriminate].
  destruct (scaler_transform a f0) as [xs0|?] eqn:Hx; [|discriminate].
  destruct (model_predict a xs0) as [pr|?] eqn:Hp; [|discriminate].
  destruct (explainer_shap_values a xs0) as [out|?] eqn:Hs; [|discriminate].
  destruct out as [sh0 | [|sh0 rest]]; [| discriminate |];
    (destruct (Nat.eqb (ndim a sh0) 3) eqn:Hn;
     [destruct (squeeze_last a sh0) as [sq|?] eqn:Hq; [|discriminate]|];
     (destruct (item_0_0 a pr) as [q|?] eqn:Hi; [|discriminate]);
     intros H; inversion H; subst;
     (split; [reflexivity|]);
     (split; [assumption|]);
     (split; [exists pr; split; assumption|]);
     eexists; eexists;
     (split; [exact Hs|]);
     (split; [first [left; reflexivity | right; eexists; reflexivity]|]);
     rewrite Hn; first [assumption | reflexivity]).
Qed.

(** X16. Whatever the scaler, the classifier and the explainer do, and
    whether a tuple or [None] comes back, [make_prediction_and_explain]
    leaves the DNS store as [extract_features] left it: a domain looked up
    for a request that later fails stays memoised. *)
Theorem make_prediction_and_explain_store
    (a : artifacts) (e : env) (url : string) (c : cache) :
  snd (make_prediction_and_explain a e url c) = snd (extract_features e url c).
Proof.
  unfold make_prediction_and_explain, make_prediction_and_explain_body, bind, lift, ret.
  destruct (extract_features e url c) as [[f0|?] c0]; [|reflexivity].
  destruct (scaler_transform a f0) as [xs0|?]; [|reflexivity].
  destruct (model_predict a xs0) as [pr|?]; [|reflexivity].
  destruct (explainer_shap_values a xs0) as [[sh0 | [|sh0 rest]]|?]; try reflexivity;
    (destruct (Nat.eqb (ndim a sh0) 3);
     [destruct (squeeze_last a sh0); [|reflexivity]|];
     destruct (item_0_0 a pr); reflexivity).
Qed.

(** X17. [make_prediction_and_explain] gives the same outcome on two URLs
    that differ only in the number of trailing slashes. *)
Theorem make_prediction_and_explain_trailing_slashes
    (a : artifacts) (e : env) (url : string) (n m : nat) (c : cache) :
  make_prediction_and_explain a e (url ++ slashes n) c =
  make_prediction_and_explain a e (url ++ slashes m) c.
Proof.
  unfold make_prediction_and_explain, make_prediction_and_explain_body, extract_features.
  rewrite !rstrip_app_slashes. reflexivity.
Qed.

(** ** Plain URLs *)

Lemma has_char_cons_false (c a : ascii) (s : string) :
  has_char c (String a s) = false -> Ascii.eqb a c = false /\ has_char c s = false.
Proof.
  unfold has_char. cbn [index_of].
  destruct (Ascii.eqb a c); [discriminate|].
  destruct (index_of c s); [discriminate|]. auto.
Qed.

Lemma has_char_app (c : ascii) (s1 s2 : string) :
  has_char c (s1 ++ s2) = (has_char c s1 || has_char c s2)%bool.
Proof.
  unfold has_char. induction s1 as [|a s1 IH]; cbn [append index_of].
  - reflexivity.
  - destruct (Ascii.eqb a c); [reflexivity|].
    destruct (index_of c (s1 ++ s2)), (index_of c s1); cbn [option_map] in *; exact IH.
Qed.

Lemma index_of_app_skip (c : ascii) (s1 s2 : string) :
  has_char c s1 = false ->
  index_of c (s1 ++ s2) = option_map (Nat.add (String.length s1)) (index_of c s2).
Proof.
  induction s1 as [|a s1 IH]; intros H; cbn [append index_of String.length].
  - destruct (index_of c s2); reflexivity.
  - apply has_char_cons_false in H. destruct H as [Ha Hs].
    rewrite Ha, (IH Hs). destruct (index_of c s2); reflexivity.
Qed.

Lemma take_app_length (s1 s2 : string) : take (String.length s1) (s1 ++ s2) = s1.
Proof. induction s1 as [|a s1 IH]; cbn; [destruct s2; reflexivity | rewrite IH; reflexivity]. Qed.

Lemma drop_app_length (s1 s2 : string) : drop (String.length s1) (s1 ++ s2) = s2.
Proof. induction s1 as [|a s1 IH]; cbn; [destruct s2; reflexivity | exact IH]. Qed.

Lemma code_eqb (a : ascii) (n : N) :
  (n < 256)%N -> N.eqb (code a) n = Ascii.eqb a (ascii_of_N n).
Proof.
  intros Hn. unfold code.
  destruct (Ascii.eqb_spec a (ascii_of_N n)) as [->|Hne].
  - rewrite N_ascii_embedding by exact Hn. apply N.eqb_refl.
  - apply N.eqb_neq. intros H. apply Hne. rewrite <- H. symmetry. apply ascii_N_embedding.
Qed.

Lemma remove_unsafe_id (s : string) :
  lacks ["009"; "013"; "010"]%char s = true ->
  remove_chars unsafe_url_byte s = s.
Proof.
  unfold lacks. cbn [forallb]. rewrite !andb_true_iff, !negb_true_iff.
  intros (Ht & Hc & Hl & _).
  induction s as [|a s IH]; cbn [remove_chars]; [reflexivity|].
  apply has_char_cons_false in Ht, Hc, Hl.
  destruct Ht as [Ht Ht'], Hc as [Hc Hc'], Hl as [Hl Hl'].
  rewrite IH by auto.
  unfold unsafe_url_byte.
  rewrite !code_eqb by reflexivity.
  change (ascii_of_N 9) with "009"%char. change (ascii_of_N 13) with "013"%char.
  change (ascii_of_N 10) with "010"%char.
  rewrite Ht, Hc, Hl. reflexivity.
Qed.

Lemma append_empty_r (s : string) : s ++ "" = s.
Proof. induction s as [|a s IH]; cbn; [reflexivity | rewrite IH; reflexivity]. Qed.

Lemma string_length_app (s1 s2 : string) :
  String.length (s1 ++ s2) = (String.length s1 + String.length s2)%nat.
Proof. induction s1 as [|a s1 IH]; cbn; [reflexivity | rewrite IH; reflexivity]. Qed.

Lemma take_all (s : string) : take (String.length s) s = s.
Proof. induction s as [|a s IH]; cbn; [reflexivity | rewrite IH; reflexivity]. Qed.

Lemma drop_all (s : string) : drop (String.length s) s = "".
Proof. induction s as [|a s IH]; cbn; [reflexivity | exact IH]. Qed.

Lemma norm_index_of_nat (len n : nat) : norm_index len (Z.of_nat n) = n.
Proof.
  unfold norm_index. destruct (Z.ltb_spec (Z.of_nat n) 0); [lia|]. apply Nat2Z.id.
Qed.

Lemma find_absent (url : string) (c : ascii) (start : nat) :
  has_char c (drop start url) = false -> find url c start = -1.
Proof.
  unfold find, has_char. destruct (index_of c (drop start url)); [discriminate | reflexivity].
Qed.

Lemma lacks_cons (c : ascii) (cs : list ascii) (s : string) :
  lacks (c :: cs) s = true -> has_char c s = false /\ lacks cs s = true.
Proof.
  unfold lacks. cbn [forallb]. rewrite andb_true_iff, negb_true_iff. auto.
Qed.

Lemma splitnetloc_plain (host p : string) :
  lacks ["/"; "?"; "#"]%char host = true ->
  match p with EmptyString => true | String c _ => Ascii.eqb c "/" end = true ->
  lacks ["?"; "#"]%char p = true ->
  _splitnetloc (String "/" (String "/" (host ++ p))) 2 = (host, p).
Proof.
  intros Hh Hstart Hp.
  apply lacks_cons in Hh. destruct Hh as [Hh1 Hh].
  apply lacks_cons in Hh. destruct Hh as [Hh2 Hh].
  apply lacks_cons in Hh. destruct Hh as [Hh3 _].
  apply lacks_cons in Hp. destruct Hp as [Hp2 Hp].
  apply lacks_cons in Hp. destruct Hp as [Hp3 _].
  unfold _splitnetloc. cbn [fold_left].
  rewrite (find_absent _ "?" 2)
    by (cbn [drop]; rewrite has_char_app, Hh2, Hp2; reflexivity).
  rewrite (find_absent _ "#" 2)
    by (cbn [drop]; rewrite has_char_app, Hh3, Hp3; reflexivity).
  change (-1 >=? 0) with false. cbv iota.
  destruct p as [|a p].
  - rewrite (find_absent _ "/" 2)
      by (cbn [drop]; rewrite has_char_app, Hh1; reflexivity).
    change (-1 >=? 0) with false. cbv iota.
    unfold slice_to, slice_from. rewrite !norm_index_of_nat.
    rewrite take_all, drop_all. cbn [drop]. rewrite append_empty_r. reflexivity.
  - apply Ascii.eqb_eq in Hstart. subst a.
    assert (Hf : find (String "/" (String "/" (host ++ String "/" p))) "/" 2
                 = Z.of_nat (2 + String.length host)).
    { unfold find. cbn [drop]. rewrite index_of_app_skip by exact Hh1.
      cbn [index_of]. rewrite Ascii.eqb_refl. cbn [option_map].
      f_equal. lia. }
    rewrite Hf.
    replace (Z.of_nat (2 + String.length host) >=? 0) with true
      by (symmetry; apply Z.geb_le; lia).
    rewrite Z.min_r
      by (cbn [String.length]; rewrite string_length_app; cbn [String.length]; lia).
    unfold slice_to, slice_from. rewrite !norm_index_of_nat.
    cbn [Nat.add take drop]. rewrite take_app_length, drop_app_length.
    cbn [drop]. reflexivity.
Qed.

Lemma remove_chars_app (p : ascii -> bool) (s1 s2 : string) :
  remove_chars p (s1 ++ s2) = remove_chars p s1 ++ remove_chars p s2.
Proof.
  induction s1 as [|a s1 IH]; cbn [append remove_chars]; [reflexivity|].
  destruct (p a); [exact IH | cbn [append]; rewrite IH; reflexivity].
Qed.

Lemma lacks_weaken (cs cs' : list ascii) (s : string) :
  incl cs' cs -> lacks cs s = true -> lacks cs' s = true.
Proof.
  unfold lacks. rewrite !forallb_forall. intros Hi H c Hc. apply H, Hi, Hc.
Qed.

Lemma lacks_in (cs : list ascii) (s : string) (c : ascii) :
  lacks cs s = true -> List.In c cs -> has_char c s = false.
Proof.
  unfold lacks. rewrite forallb_forall. intros H Hc.
  apply negb_true_iff. apply H. exact Hc.
Qed.

Ltac urlsplit_to_netloc sch i host p Hh Hp Hstart :=
  unfold urlsplit;
  change (lstrip c0_control_or_space (sch ++ "://" ++ host ++ p))
    with (sch ++ "://" ++ host ++ p);
  rewrite !remove_chars_app;
  rewrite (remove_unsafe_id host)
    by (revert Hh; apply lacks_weaken; intros x Hx; cbn in *; tauto);
  rewrite (remove_unsafe_id p)
    by (revert Hp; apply lacks_weaken; intros x Hx; cbn in *; tauto);
  change (remove_chars unsafe_url_byte sch) with sch;
  change (remove_chars unsafe_url_byte "://") with "://";
  cbv zeta;
  change (find (sch ++ "://" ++ host ++ p) ":" 0) with i;
  change (slice_to (sch ++ "://" ++ host ++ p) i) with sch;
  change (slice_from (sch ++ "://" ++ host ++ p) (i + 1))
    with (String "/" (String "/" (host ++ p)));
  change (i >? 0) with true;
  change (match sch ++ "://" ++ host ++ p with
          | "" => false
          | String c _ => is_ascii_alpha c
          end) with true;
  change (string_forallb scheme_char sch) with true;
  change (lower sch) with sch;
  cbv iota beta; cbn [andb];
  change (take 2 (String "/" (String "/" (host ++ p)))) with "//";
  change ("//" =? "//")%string with true; cbv iota;
  rewrite splitnetloc_plain;
    [ | revert Hh; apply lacks_weaken; intros x Hx; cbn in *; tauto
      | exact Hstart
      | revert Hp; apply lacks_weaken; intros x Hx; cbn in *; tauto ].

Ltac urlsplit_plain_script sch i host p Hh Hp Hstart :=
  urlsplit_to_netloc sch i host p Hh Hp Hstart;
  rewrite (lacks_in _ host "[" Hh) by (cbn; tauto);
  rewrite (lacks_in _ host "]" Hh) by (cbn; tauto);
  cbn [andb orb negb bind_result];
  rewrite (lacks_in _ p "#" Hp) by (cbn; tauto);
  rewrite (lacks_in _ p "?" Hp) by (cbn; tauto);
  reflexivity.

Lemma urlsplit_plain (sch host p : string) :
  sch = "http" \/ sch = "https" ->
  plain_host host = true ->
  plain_path p = true ->
  urlsplit (sch ++ "://" ++ host ++ p) =
    bind_result (_checknetloc host) (fun _ => Return (sch, host, p, "", "")).
Proof.
  intros Hs Hh Hp. unfold plain_host in Hh. unfold plain_path in Hp.
  apply andb_true_iff in Hp. destruct Hp as [Hstart Hp].
  destruct Hs as [-> | ->].
  - urlsplit_plain_script "http" 4 host p Hh Hp Hstart.
  - urlsplit_plain_script "https" 5 host p Hh Hp Hstart.
Qed.

Lemma urlparse_plain (sch host p : string) :
  sch = "http" \/ sch = "https" ->
  plain_host host = true ->
  plain_path p = true ->
  urlparse (sch ++ "://" ++ host ++ p) =
    bind_result (_checknetloc host)
      (fun _ => Return (mkParseResult sch host p "" "" "")).
Proof.
  intros Hs Hh Hp. unfold urlparse.
  rewrite (urlsplit_plain sch host p Hs Hh Hp).
  destruct (_checknetloc host) as [u|ex]; cbn [bind_result]; [|reflexivity].
  unfold plain_path in Hp. apply andb_true_iff in Hp. destruct Hp as [_ Hp].
  rewrite (lacks_in _ p ";" Hp) by (cbn; tauto).
  rewrite andb_false_r. reflexivity.
Qed.

(** The NFKC check accepts a host that is ASCII or whose NFKC form holds
    no delimiter. *)
Lemma _checknetloc_passes (host : string) :
  isascii host = true \/
  nfkc_has_delimiter (remove_chars netloc_delimiter host) = false ->
  _checknetloc host = Return tt.
Proof.
  unfold _checknetloc. intros [Ha | Hn].
  - rewrite Ha, orb_true_r. reflexivity.
  - destruct (String.eqb host "" || isascii host)%bool; [reflexivity|].
    cbv zeta. rewrite Hn. reflexivity.
Qed.

(** X18. On a URL [http://host/path] or [https://host/path] with a plain
    path and a plain host that is ASCII, or whose NFKC form at least holds
    none of [/?#@:], the lexical features read the component they are
    named after: the depth and the redirection flag depend on the path
    alone, the three host flags on the host alone. The scheme [https] and a
    hyphen in the path set no host flag. *)
Theorem lexical_features_of_plain_url (sch host p : string) :
  sch = "http" \/ sch = "https" ->
  plain_host host = true ->
  isascii host = true \/
  nfkc_has_delimiter (remove_chars netloc_delimiter host) = false ->
  plain_path p = true ->
  get_url_depth (sch ++ "://" ++ host ++ p) =
    Return (if String.eqb p "/" then 0 else count "/" p) /\
  has_redirection (sch ++ "://" ++ host ++ p) =
    Return (if contains "//" p then 1 else 0) /\
  has_https_in_domain (sch ++ "://" ++ host ++ p) =
    Return (if contains "https" host then 1 else 0) /\
  is_tiny_url (sch ++ "://" ++ host ++ p) =
    Return (if in_list host ["bit.ly"; "goog.gl"; "tinyurl.com"; "ow.ly"; "t.co"]
            then 1 else 0) /\
  has_prefix_suffix (sch ++ "://" ++ host ++ p) =
    Return (if has_char "-" host then 1 else 0).
Proof.
  intros Hs Hh Hc Hp.
  unfold get_url_depth, has_redirection, has_https_in_domain, is_tiny_url,
    has_prefix_suffix.
  rewrite (urlparse_plain sch host p Hs Hh Hp), (_checknetloc_passes host Hc).
  cbn [bind_result path netloc].
  repeat split. destruct (String.eqb p "/"); reflexivity.
Qed.

Lemma rstrip_app (c : ascii) (s1 s2 : string) :
  rstrip c (s1 ++ s2) =
    match rstrip c s2 with
    | EmptyString => rstrip c s1
    | r => s1 ++ r
    end.
Proof.
  induction s1 as [|a s1 IH]; cbn [append].
  - cbn [rstrip]. destruct (rstrip c s2); reflexivity.
  - cbn [rstrip]. rewrite IH.
    destruct (rstrip c s2) as [|b r]; [reflexivity|].
    destruct s1; reflexivity.
Qed.

Lemma rstrip_absent (c : ascii) (s : string) :
  has_char c s = false -> rstrip c s = s.
Proof.
  induction s as [|a s IH]; intros H; cbn [rstrip]; [reflexivity|].
  apply has_char_cons_false in H. destruct H as [Ha Hs].
  rewrite (IH Hs), Ha. destruct s; reflexivity.
Qed.

Lemma has_char_rstrip (c d : ascii) (s : string) :
  has_char c s = false -> has_char c (rstrip d s) = false.
Proof.
  induction s as [|a s IH]; intros H; cbn [rstrip]; [reflexivity|].
  apply has_char_cons_false in H. destruct H as [Ha Hs].
  specialize (IH Hs).
  destruct (rstrip d s) as [|b r].
  - destruct (Ascii.eqb a d); [reflexivity|].
    unfold has_char. cbn [index_of]. rewrite Ha. reflexivity.
  - unfold has_char in *. cbn [index_of] in *. rewrite Ha.
    destruct (Ascii.eqb b c); [discriminate IH|].
    destruct (index_of c r); [discriminate IH | reflexivity].
Qed.

Lemma plain_path_rstrip (p : string) :
  plain_path p = true -> plain_path (rstrip "/" p) = true.
Proof.
  unfold plain_path. rewrite !andb_true_iff. intros [Hstart Hl]. split.
  - destruct p as [|a p]; [reflexivity|]. cbn [rstrip].
    destruct (rstrip "/" p); [rewrite Hstart; reflexivity | exact Hstart].
  - unfold lacks in *. rewrite forallb_forall in *. intros c Hc.
    specialize (Hl c Hc). apply negb_true_iff in Hl. apply negb_true_iff.
    apply has_char_rstrip. exact Hl.
Qed.

(** The trailing slashes of a plain URL with a host are those of its
    path. *)
Lemma rstrip_plain_url (sch host p : string) :
  plain_host host = true ->
  host <> "" ->
  rstrip "/" (sch ++ "://" ++ host ++ p) = sch ++ "://" ++ host ++ rstrip "/" p.
Proof.
  intros Hh Hne.
  assert (Hhost : rstrip "/" host = host).
  { apply rstrip_absent. apply (lacks_in _ host "/" Hh). cbn. tauto. }
  rewrite (rstrip_app "/" sch), (rstrip_app "/" "://"), (rstrip_app "/" host).
  destruct (rstrip "/" p) as [|b r].
  - rewrite Hhost, append_empty_r.
    destruct host as [|a host]; [contradiction | reflexivity].
  - destruct host; reflexivity.
Qed.

Lemma rstrip_not_root (p : string) : String.eqb (rstrip "/" p) "/" = false.
Proof.
  apply String.eqb_neq. intros H.
  apply (rstrip_no_trailing_slash p ""). rewrite H. reflexivity.
Qed.

(** X19. In the vector of a plain URL with a host, the trailing slashes of
    the path do not count: slot 3 is the number of slashes of the path
    without them (0 for [http://host/], where [get_url_depth] on the URL
    as given returns 0 too, and 1 for [http://host/a/], where it returns
    2); slots 4 to 7 are read off that path and the host. *)
Theorem extract_features_of_plain_url
    (e : env) (sch host p : string) (c c' : cache) (f : list Z) :
  sch = "http" \/ sch = "https" ->
  plain_host host = true ->
  host <> "" ->
  plain_path p = true ->
  extract_features e (sch ++ "://" ++ host ++ p) c = (Return f, c') ->
  nth 3 f 0 = count "/" (rstrip "/" p) /\
  nth 4 f 0 = (if contains "//" (rstrip "/" p) then 1 else 0) /\
  nth 5 f 0 = (if contains "https" host then 1 else 0) /\
  nth 6 f 0 = (if in_list host ["bit.ly"; "goog.gl"; "tinyurl.com"; "ow.ly"; "t.co"]
               then 1 else 0) /\
  nth 7 f 0 = (if has_char "-" host then 1 else 0).
Proof.
  intros Hs Hh Hne Hp H.
  assert (Hparse : urlparse (rstrip "/" (sch ++ "://" ++ host ++ p)) =
                   bind_result (_checknetloc host)
                     (fun _ => Return (mkParseResult sch host (rstrip "/" p) "" "" ""))).
  { rewrite (rstrip_plain_url sch host p Hh Hne).
    apply urlparse_plain; [exact Hs | exact Hh | apply plain_path_rstrip; exact Hp]. }
  destruct (_checknetloc host) as [u|ex]; cbn [bind_result] in Hparse;
    [|rewrite (extract_features_unparsed e _ c ex Hparse) in H; discriminate H].
  destruct (extract_features_parsed e _ c _ Hparse)
    as (? & ? & ? & ? & _ & _ & _ & _ & _ & _ & _ & _ & Heq).
  rewrite Heq in H. cbn [path netloc] in H.
  destruct (check_dns_record e host c) as [[v|?] ?]; [|discriminate H].
  inversion H; subst. cbn [nth].
  rewrite rstrip_not_root. repeat split.
Qed.


(** ** URLs that do not parse *)

Lemma urlsplit_unbalanced (sch host p : string) :
  sch = "http" \/ sch = "https" ->
  lacks ["/"; "?"; "#"; "009"; "013"; "010"]%char host = true ->
  xorb (has_char "[" host) (has_char "]" host) = true ->
  plain_path p = true ->
  urlsplit (sch ++ "://" ++ host ++ p) = Raise ValueError.
Proof.
  intros Hs Hh Hb Hp. unfold plain_path in Hp.
  apply andb_true_iff in Hp. destruct Hp as [Hstart Hp].
  destruct Hs as [-> | ->].
  - urlsplit_to_netloc "http" 4 host p Hh Hp Hstart.
    destruct (has_char "[" host), (has_char "]" host);
      first [discriminate Hb | reflexivity].
  - urlsplit_to_netloc "https" 5 host p Hh Hp Hstart.
    destruct (has_char "[" host), (has_char "]" host);
      first [discriminate Hb | reflexivity].
Qed.

Lemma rstrip_url_with_host (sch host p : string) :
  has_char "/" host = false ->
  host <> "" ->
  rstrip "/" (sch ++ "://" ++ host ++ p) = sch ++ "://" ++ host ++ rstrip "/" p.
Proof.
  intros Hh Hne.
  assert (Hhost : rstrip "/" host = host) by (apply rstrip_absent; exact Hh).
  rewrite (rstrip_app "/" sch), (rstrip_app "/" "://"), (rstrip_app "/" host).
  destruct (rstrip "/" p) as [|b r].
  - rewrite Hhost, append_empty_r.
    destruct host as [|a host]; [contradiction | reflexivity].
  - destruct host; reflexivity.
Qed.

(** X20. A URL [http://host/path] or [https://host/path] whose host holds
    one of the two brackets without the other is scored without a look at
    the network: [urlparse] raises [ValueError], [extract_features] raises
    it with the DNS store untouched, whatever the environment, and
    [make_prediction_and_explain] returns [None]. *)
Theorem unbalanced_bracket_url
    (a : artifacts) (e : env) (sch host p : string) (c : cache) :
  sch = "http" \/ sch = "https" ->
  lacks ["/"; "?"; "#"; "009"; "013"; "010"]%char host = true ->
  xorb (has_char "[" host) (has_char "]" host) = true ->
  plain_path p = true ->
  extract_features e (sch ++ "://" ++ host ++ p) c = (Raise ValueError, c) /\
  make_prediction_and_explain a e (sch ++ "://" ++ host ++ p) c = (Return None, c).
Proof.
  intros Hs Hh Hb Hp.
  assert (Hne : host <> "").
  { intros ->. discriminate Hb. }
  assert (Hslash : has_char "/" host = false).
  { apply (lacks_in _ host "/" Hh). cbn. tauto. }
  assert (Hraise : extract_features e (sch ++ "://" ++ host ++ p) c = (Raise ValueError, c)).
  { apply extract_features_unparsed.
    rewrite (rstrip_url_with_host sch host p Hslash Hne).
    unfold urlparse.
    rewrite (urlsplit_unbalanced sch host (rstrip "/" p) Hs Hh Hb
               (plain_path_rstrip p Hp)).
    reflexivity. }
  split; [exact Hraise|].
  unfold make_prediction_and_explain, make_prediction_and_explain_body, bind.
  rewrite Hraise. reflexivity.
Qed.

(** X21. [extract_features] raises in two cases only: [urlparse] raises on
    the URL without its trailing slashes, or the URL parses, its domain is
    not in the DNS store and the resolver raises an exception that is not a
    [socket.error]. Either way the exception raised is that one and the DNS
    store is left as it was. *)
Theorem extract_features_raises_only_on
    (e : env) (url : string) (c c' : cache) (ex : exn) :
  extract_features e url c = (Raise ex, c') ->
  c' = c /\
  (urlparse (rstrip "/" url) = Raise ex \/
   exists p,
     urlparse (rstrip "/" url) = Return p /\
     cache_get (netloc p) c = None /\
     gethostbyname e (netloc p) = Raise ex /\
     is_socket_error ex = false).
Proof.
  intros H.
  destruct (urlparse (rstrip "/" url)) as [p|ex0] eqn:Hp.
  - destruct (extract_features_parsed e url c p Hp)
      as (? & ? & ? & ? & _ & _ & _ & _ & _ & _ & _ & _ & Heq).
    rewrite Heq in H.
    unfold check_dns_record, lru_cache, check_dns_record_wrapped in H.
    destruct (cache_get (netloc p) c) as [v|] eqn:Hg; [discriminate H|].
    destruct (gethostbyname e (netloc p)) as [ip|ex1] eqn:Hr; [discriminate H|].
    destruct (is_socket_error ex1) eqn:Hs; [discriminate H|].
    inversion H; subst. split; [reflexivity|].
    right. exists p. repeat split; assumption.
  - rewrite (extract_features_unparsed e url c ex0 Hp) in H.
    inversion H; subst. split; [reflexivity | left; reflexivity].
Qed.

(** ** One entry per domain *)

Lemma cache_get_none_not_in (k : string) (c : cache) :
  cache_get k c = None -> ~ List.In k (map fst c).
Proof.
  induction c as [|[k' v'] c IH]; cbn [cache_get map fst List.In]; intros Hg.
  - intros [].
  - destruct (String.eqb_spec k k') as [|Hne]; [discriminate Hg|].
    intros [Heq | Hin]; [apply Hne; symmetry; exact Heq | exact (IH Hg Hin)].
Qed.

Lemma cache_remove_not_in (k : string) (c : cache) :
  ~ List.In k (map fst (cache_remove k c)).
Proof.
  induction c as [|[k' v'] c IH]; cbn [cache_remove]; [intros []|].
  destruct (String.eqb_spec k k') as [|Hne]; [exact IH|].
  cbn [map fst List.In]. intros [Heq | Hin]; [apply Hne; symmetry; exact Heq | exact (IH Hin)].
Qed.

Lemma cache_remove_in (k k2 : string) (c : cache) :
  List.In k2 (map fst (cache_remove k c)) -> List.In k2 (map fst c).
Proof.
  induction c as [|[k' v'] c IH]; cbn [cache_remove]; [intros []|].
  destruct (String.eqb k k'); cbn [map fst List.In]; [intros H; right; exact (IH H)|].
  intros [Heq | Hin]; [left; exact Heq | right; exact (IH Hin)].
Qed.

Lemma cache_remove_nodup (k : string) (c : cache) :
  NoDup (map fst c) -> NoDup (map fst (cache_remove k c)).
Proof.
  induction c as [|[k' v'] c IH]; cbn [cache_remove map fst]; intros Hn.
  - constructor.
  - inversion Hn as [|? ? Hnotin Hn']; subst.
    destruct (String.eqb k k'); [exact (IH Hn')|].
    cbn [map fst]. constructor; [|exact (IH Hn')].
    intros Hin. apply Hnotin. eapply cache_remove_in. exact Hin.
Qed.

Lemma firstn_nodup_keys (n : nat) (c : cache) :
  NoDup (map fst c) -> NoDup (map fst (firstn n c)).
Proof.
  revert c. induction n as [|n IH]; intros c Hn; cbn [firstn]; [constructor|].
  destruct c as [|[k v] c]; [constructor|].
  cbn [map fst] in *. inversion Hn as [|? ? Hnotin Hn']; subst.
  constructor; [|exact (IH c Hn')].
  intros Hin. apply Hnotin.
  rewrite <- (firstn_skipn n c), map_app. apply in_or_app. left. exact Hin.
Qed.

(** X22. The DNS store holds at most one entry per domain, and a lookup
    keeps it so: the capacity of [maxsize] entries is a capacity of
    [maxsize] distinct domains. *)
Theorem check_dns_record_one_entry_per_domain
    (e : env) (domain : string) (c : cache) :
  NoDup (map fst c) ->
  NoDup (map fst (snd (check_dns_record e domain c))).
Proof.
  intros Hn. unfold check_dns_record, lru_cache.
  destruct (cache_get domain c) as [v|] eqn:Hg.
  - cbn [snd map fst]. constructor;
      [apply cache_remove_not_in | apply cache_remove_nodup; exact Hn].
  - destruct (check_dns_record_wrapped e domain) as [w|?]; cbn [snd]; [|exact Hn].
    apply firstn_nodup_keys. cbn [map fst].
    constructor; [apply cache_get_none_not_in; exact Hg | exact Hn].
Qed.


(** ** URLs without a scheme *)

Lemma take_two_prefix (url : string) :
  String.eqb (take 2 url) "//" = prefix "//" url.
Proof.
  destruct url as [|a [|b r]]; cbn [take prefix].
  - reflexivity.
  - destruct (Ascii.ascii_dec "/" a) as [<-|]; [reflexivity|].
    apply String.eqb_neq. intros H. inversion H.
  - cbn [take prefix].
    destruct (Ascii.ascii_dec "/" a) as [<-|Ha].
    + destruct (Ascii.ascii_dec "/" b) as [<-|Hb].
      * destruct r; reflexivity.
      * apply String.eqb_neq. intros H. inversion H. congruence.
    + apply String.eqb_neq. intros H. inversion H. congruence.
Qed.

Lemma urlparse_schemeless (url : string) :
  schemeless url = true ->
  urlparse url = Return (mkParseResult "" "" url "" "" "").
Proof.
  unfold schemeless. rewrite !andb_true_iff, negb_true_iff.
  intros [[Hstart Hpre] Hl].
  assert (Hstrip : lstrip c0_control_or_space url = url).
  { destruct url as [|a r]; [reflexivity|]. cbn [lstrip].
    apply negb_true_iff in Hstart. rewrite Hstart. reflexivity. }
  unfold urlparse, urlsplit.
  rewrite Hstrip.
  rewrite (remove_unsafe_id url)
    by (revert Hl; apply lacks_weaken; intros x Hx; cbn in *; tauto).
  cbv zeta.
  rewrite (find_absent url ":" 0)
    by (replace (drop 0 url) with url by (destruct url; reflexivity);
        apply (lacks_in _ url ":" Hl); cbn; tauto).
  change (-1 >? 0) with false. cbn [andb]. cbv iota beta.
  rewrite take_two_prefix, Hpre. cbn [bind_result].
  rewrite (lacks_in _ url "#" Hl) by (cbn; tauto).
  rewrite (lacks_in _ url "?" Hl) by (cbn; tauto).
  change (_checknetloc "") with (@Return unit tt). cbn [bind_result].
  rewrite (lacks_in _ url ";" Hl) by (cbn; tauto).
  rewrite andb_false_r. reflexivity.
Qed.

(** X23. On a URL typed without a scheme, such as [bit.ly/abc] or
    [www.my-bank.example/login], no host is recognised: the whole text is
    the path, [get_url_depth] counts its slashes, and the three host flags
    are 0 whatever the text holds. *)
Theorem lexical_features_of_schemeless_url (url : string) :
  schemeless url = true ->
  get_url_depth url = Return (if String.eqb url "/" then 0 else count "/" url) /\
  has_redirection url = Return (if contains "//" url then 1 else 0) /\
  has_https_in_domain url = Return 0 /\
  is_tiny_url url = Return 0 /\
  has_prefix_suffix url = Return 0.
Proof.
  intros Hs.
  unfold get_url_depth, has_redirection, has_https_in_domain, is_tiny_url,
    has_prefix_suffix.
  rewrite (urlparse_schemeless url Hs). cbn [bind_result path netloc].
  repeat split. destruct (String.eqb url "/"); reflexivity.
Qed.

(** X24. In the vector of a URL that is without a scheme once its trailing
    slashes are removed, slots 5, 6 and 7 hold 0, and the DNS, ranking and
    registration probes are asked about the empty domain name: slot 8 is
    what [check_dns_record] returns for it, slot 9 what [get_web_traffic]
    does. *)
Theorem extract_features_of_schemeless_url
    (e : env) (url : string) (c c' : cache) (f : list Z) :
  schemeless (rstrip "/" url) = true ->
  extract_features e url c = (Return f, c') ->
  nth 5 f 0 = 0 /\ nth 6 f 0 = 0 /\ nth 7 f 0 = 0 /\
  check_dns_record e "" c = (Return (nth 8 f 0), c') /\
  nth 9 f 0 = get_web_traffic e "" /\
  get_domain_age e "" = Return (nth 10 f 0) /\
  get_domain_end_period e "" = Return (nth 11 f 0).
Proof.
  intros Hs H.
  pose proof (urlparse_schemeless _ Hs) as Hparse.
  destruct (extract_features_parsed e url c _ Hparse)
    as (v10 & v11 & v13 & v15 & _ & _ & _ & _ & H10 & H11 & _ & _ & Heq).
  rewrite Heq in H. cbn [path netloc] in *.
  destruct (check_dns_record e "" c) as [[v|?] c1]; [|discriminate H].
  inversion H; subst. cbn [nth]. repeat split; assumption.
Qed.

End Pipeline.

(** * Instances *)

Lemma extract_features_shape_witness :
  exists f c',
    extract_features no_bracket_check no_nfkc_delimiter online_env "https://example.com/a/b//" [] = (Return f, c') /\
    List.length f = 16%nat /\
    (forall i, (i < 16)%nat -> i <> 3%nat -> binary (nth i f 0)) /\
    get_url_depth no_bracket_check no_nfkc_delimiter (rstrip "/" "https://example.com/a/b//") =
      Return (nth 3 f 0) /\
    nth 3 f 0 =
      (if String.eqb (path (mkParseResult "https" "example.com" "/a/b" "" "" "")) "/" then 0
       else Z.of_nat (slash_separators
                        (path (mkParseResult "https" "example.com" "/a/b" "" "" "")))) /\
    0 <= nth 3 f 0 /\
    cache_ok c'.
Proof.
  apply (extract_features_shape no_bracket_check no_nfkc_delimiter online_env
           "https://example.com/a/b//" []
           (mkParseResult "https" "example.com" "/a/b" "" "" "")).
  - constructor.
  - vm_compute. reflexivity.
  - intros ex _ H. discriminate H.
Defined.

(** C1 as stated fails: the vector of a URL with two path segments holds
    the value 2 in slot 3. *)
Lemma extract_features_not_all_binary :
  exists c',
    extract_features no_bracket_check no_nfkc_delimiter offline_env "http://a.com/b/c" [] =
      (Return [0; 0; 1; 2; 0; 0; 0; 0; 0; 0; 0; 0; 0; 0; 1; 0], c') /\
    ~ Forall binary [0; 0; 1; 2; 0; 0; 0; 0; 0; 0; 0; 0; 0; 0; 1; 0].
Proof.
  eexists. split; [vm_compute; reflexivity|].
  intros H.
  repeat match goal with
         | H : Forall _ (_ :: _) |- _ => inversion H; subst; clear H
         end.
  match goal with
  | H : binary 2 |- _ => destruct H; discriminate
  end.
Qed.

Lemma lexical_features_deterministic_witness :
  (has_ip_address "http://a.com/b" = has_ip_address "http://a.com/b" /\
   has_at_symbol "http://a.com/b" = has_at_symbol "http://a.com/b" /\
   get_url_length "http://a.com/b" = get_url_length "http://a.com/b" /\
   get_url_depth no_bracket_check no_nfkc_delimiter "http://a.com/b" = get_url_depth no_bracket_check no_nfkc_delimiter "http://a.com/b" /\
   has_redirection no_bracket_check no_nfkc_delimiter "http://a.com/b" = has_redirection no_bracket_check no_nfkc_delimiter "http://a.com/b" /\
   has_https_in_domain no_bracket_check no_nfkc_delimiter "http://a.com/b" = has_https_in_domain no_bracket_check no_nfkc_delimiter "http://a.com/b" /\
   is_tiny_url no_bracket_check no_nfkc_delimiter "http://a.com/b" = is_tiny_url no_bracket_check no_nfkc_delimiter "http://a.com/b" /\
   has_prefix_suffix no_bracket_check no_nfkc_delimiter "http://a.com/b" = has_prefix_suffix no_bracket_check no_nfkc_delimiter "http://a.com/b") /\
  (forall e1 e2 c1 c2 f1 f2 c1' c2',
      extract_features no_bracket_check no_nfkc_delimiter e1 "http://a.com/b" c1 = (Return f1, c1') ->
      extract_features no_bracket_check no_nfkc_delimiter e2 "http://a.com/b" c2 = (Return f2, c2') ->
      firstn 8 f1 = firstn 8 f2).
Proof.
  apply (lexical_features_deterministic no_bracket_check no_nfkc_delimiter "http://a.com/b" "http://a.com/b").
  reflexivity.
Defined.

Lemma dns_failure_isolated_witness :
  exists f_ok c_ok f c',
    extract_features no_bracket_check no_nfkc_delimiter online_env "http://example.com/login" [] = (Return f_ok, c_ok) /\
    extract_features no_bracket_check no_nfkc_delimiter
      (with_gethostbyname online_env (fun _ => Raise timeout))
      "http://example.com/login" [] = (Return f, c') /\
    nth 8 f_ok 0 = 1 /\
    nth 8 f 0 = 0 /\
    (forall i, i <> 8%nat -> nth i f 0 = nth i f_ok 0).
Proof.
  apply (dns_failure_isolated no_bracket_check no_nfkc_delimiter online_env (fun _ => Raise timeout)
           "http://example.com/login" []
           (mkParseResult "http" "example.com" "/login" "" "" "")
           "93.184.216.34" timeout).
  - vm_compute. reflexivity.
  - reflexivity.
  - reflexivity.
  - reflexivity.
  - reflexivity.
Defined.

Lemma get_url_depth_counts_slashes_witness :
  (get_url_depth no_bracket_check no_nfkc_delimiter "http://a.com/b/c;v?q=/#/" =
     Return (if String.eqb (path (mkParseResult "http" "a.com" "/b/c" "v" "q=/" "/")) "/"
             then 0
             else Z.of_nat (slash_separators
                              (path (mkParseResult "http" "a.com" "/b/c" "v" "q=/" "/")))) /\
   (path (mkParseResult "http" "a.com" "/b/c" "v" "q=/" "/") = "" \/
    path (mkParseResult "http" "a.com" "/b/c" "v" "q=/" "/") = "/" ->
    get_url_depth no_bracket_check no_nfkc_delimiter "http://a.com/b/c;v?q=/#/" = Return 0)) /\
  (exists p',
      urlparse no_bracket_check no_nfkc_delimiter (rstrip "/" "http://a.com/b/c;v?q=/#/") =
        Return p' /\
      nth 3 [0; 0; 1; 2; 0; 0; 0; 0; 0; 0; 0; 0; 0; 0; 1; 0] 0 =
        (if String.eqb (path p') "/" then 0
         else Z.of_nat (slash_separators (path p')))).
Proof.
  destruct (get_url_depth_counts_slashes no_bracket_check no_nfkc_delimiter
              "http://a.com/b/c;v?q=/#/") as [Hdepth Hslot].
  split.
  - apply (Hdepth (mkParseResult "http" "a.com" "/b/c" "v" "q=/" "/")).
    vm_compute. reflexivity.
  - apply (Hslot offline_env [] [0; 0; 1; 2; 0; 0; 0; 0; 0; 0; 0; 0; 0; 0; 1; 0]
             [("a.com", 0)]).
    vm_compute. reflexivity.
Defined.

(** C8 as stated fails. [get_url_depth] raises on a URL whose host has an
    unbalanced bracket; and for a URL with a trailing slash, whose path
    holds two slashes, slot 3 of the vector holds 1. *)
Lemma get_url_depth_raises_and_slot_differs :
  get_url_depth no_bracket_check no_nfkc_delimiter "http://[::1/x" = Raise ValueError /\
  urlparse no_bracket_check no_nfkc_delimiter "http://a.com/b/" =
    Return (mkParseResult "http" "a.com" "/b/" "" "" "") /\
  slash_separators "/b/" = 2%nat /\
  get_url_depth no_bracket_check no_nfkc_delimiter "http://a.com/b/" = Return 2 /\
  exists f c',
    extract_features no_bracket_check no_nfkc_delimiter offline_env "http://a.com/b/" [] =
      (Return f, c') /\
    nth 3 f 0 = 1.
Proof.
  repeat split; try (vm_compute; reflexivity).
  do 2 eexists. split; vm_compute; reflexivity.
Qed.

Lemma host_features_without_netloc_witness :
  has_https_in_domain no_bracket_check no_nfkc_delimiter "mailto:https-desk@bit.ly" = Return 0 /\
  is_tiny_url no_bracket_check no_nfkc_delimiter "mailto:https-desk@bit.ly" = Return 0 /\
  has_prefix_suffix no_bracket_check no_nfkc_delimiter "mailto:https-desk@bit.ly" = Return 0.
Proof.
  apply (host_features_without_netloc no_bracket_check no_nfkc_delimiter "mailto:https-desk@bit.ly"
           (mkParseResult "mailto" "" "https-desk@bit.ly" "" "" "")).
  - vm_compute. reflexivity.
  - reflexivity.
Defined.

(** * Examples *)

(** The scenario of the design document on a machine without network: the
    IP-literal slot is 0, the at-symbol slot 1, the length slot 1, the
    depth 1, and every probe slot is at its default. *)
Example extract_features_scenario :
  extract_features no_bracket_check no_nfkc_delimiter offline_env "http://192.168.1.1/@login" [] =
    (Return [0; 1; 1; 1; 0; 0; 0; 0; 0; 0; 0; 0; 0; 0; 1; 0],
     [("192.168.1.1", 0)]).
Proof. vm_compute. reflexivity. Qed.

Example extract_features_online :
  fst (extract_features no_bracket_check no_nfkc_delimiter online_env "https://my-https.example.com//a/" []) =
    Return [0; 0; 1; 2; 1; 1; 0; 1; 1; 0; 1; 1; 0; 1; 1; 1].
Proof. vm_compute. reflexivity. Qed.

Example urlparse_components :
  urlparse no_bracket_check no_nfkc_delimiter "HTTP://user@a.com:80/b/c;v?q=1#top" =
    Return (mkParseResult "http" "user@a.com:80" "/b/c" "v" "q=1" "top").
Proof. vm_compute. reflexivity. Qed.

Example urlparse_without_scheme :
  urlparse no_bracket_check no_nfkc_delimiter "www.example.com/index.html" =
    Return (mkParseResult "" "" "www.example.com/index.html" "" "" "").
Proof. vm_compute. reflexivity. Qed.

Example urlparse_unbalanced_bracket :
  urlparse no_bracket_check no_nfkc_delimiter "http://[::1/x" = Raise ValueError.
Proof. vm_compute. reflexivity. Qed.

Example get_url_depth_root :
  get_url_depth no_bracket_check no_nfkc_delimiter "http://a.com/" = Return 0 /\
  get_url_depth no_bracket_check no_nfkc_delimiter "http://a.com" = Return 0 /\
  get_url_depth no_bracket_check no_nfkc_delimiter "http://a.com/b/" = Return 2.
Proof. repeat split; vm_compute; reflexivity. Qed.

Example is_tiny_url_exact_host :
  is_tiny_url no_bracket_check no_nfkc_delimiter "https://bit.ly/x" = Return 1 /\
  is_tiny_url no_bracket_check no_nfkc_delimiter "https://www.bit.ly/x" = Return 0.
Proof. split; vm_compute; reflexivity. Qed.

(** The second lookup of a domain does not reach the resolver: the entry
    stored on a machine without network answers on a machine with one. *)
Example check_dns_record_memoised :
  exists c,
    check_dns_record offline_env "a.com" [] = (Return 0, c) /\
    fst (check_dns_record online_env "a.com" c) = Return 0.
Proof. eexists. split; vm_compute; reflexivity. Qed.

(** * Instances of the further properties *)

Lemma has_ip_address_needs_literal_witness :
  has_ip_address "http://192.168.1.1/a{1,3}b" = 0.
Proof.
  apply (has_ip_address_needs_literal "http://192.168.1.1/a{1,3}b").
  vm_compute. reflexivity.
Defined.

Lemma redirection_implies_depth_witness :
  exists d, get_url_depth no_bracket_check no_nfkc_delimiter "http://a.com//b" = Return d /\ 2 <= d.
Proof.
  apply (redirection_implies_depth no_bracket_check no_nfkc_delimiter "http://a.com//b").
  vm_compute. reflexivity.
Defined.

Lemma tiny_url_excludes_host_flags_witness :
  has_https_in_domain no_bracket_check no_nfkc_delimiter "https://bit.ly/x-y" = Return 0 /\
  has_prefix_suffix no_bracket_check no_nfkc_delimiter "https://bit.ly/x-y" = Return 0.
Proof.
  apply (tiny_url_excludes_host_flags no_bracket_check no_nfkc_delimiter "https://bit.ly/x-y").
  vm_compute. reflexivity.
Defined.

Lemma extract_features_reserved_slots_witness :
  List.length [0; 0; 1; 1; 0; 0; 0; 0; 1; 1; 1; 1; 0; 1; 1; 1] = 16%nat /\
  nth 12 [0; 0; 1; 1; 0; 0; 0; 0; 1; 1; 1; 1; 0; 1; 1; 1] 0 = 0 /\
  nth 14 [0; 0; 1; 1; 0; 0; 0; 0; 1; 1; 1; 1; 0; 1; 1; 1] 0 = 1.
Proof.
  apply (extract_features_reserved_slots no_bracket_check no_nfkc_delimiter online_env
           "http://example.com/login" [] [("example.com", 1)]).
  vm_compute. reflexivity.
Defined.

Lemma extract_features_without_network_witness :
  exists f c',
    extract_features no_bracket_check no_nfkc_delimiter offline_env "http://a.com/b" [] = (Return f, c') /\
    nth 8 f 0 = 0 /\ nth 10 f 0 = 0 /\ nth 11 f 0 = 0 /\
    nth 13 f 0 = 0 /\ nth 15 f 0 = 0.
Proof.
  apply (extract_features_without_network no_bracket_check no_nfkc_delimiter offline_env
           "http://a.com/b" [] (mkParseResult "http" "a.com" "/b" "" "" "")
           gaierror gaierror RequestException).
  - vm_compute. reflexivity.
  - reflexivity.
  - reflexivity.
  - reflexivity.
  - reflexivity.
  - intros t. reflexivity.
Defined.

Lemma extract_features_store_bounded_witness :
  (List.length (snd (extract_features no_bracket_check no_nfkc_delimiter offline_env "http://a.com/b" []))
   <= maxsize)%nat.
Proof.
  apply (extract_features_store_bounded no_bracket_check no_nfkc_delimiter offline_env "http://a.com/b" []).
  apply Nat.le_0_l.
Defined.

Lemma extract_features_dns_slot_memoised_witness :
  nth 8 [0; 0; 1; 1; 0; 0; 0; 0; 0; 0; 1; 1; 0; 1; 1; 1] 0 =
  nth 8 [0; 0; 1; 1; 0; 0; 0; 0; 0; 0; 0; 0; 0; 0; 1; 0] 0.
Proof.
  apply (extract_features_dns_slot_memoised no_bracket_check no_nfkc_delimiter offline_env online_env
           "http://a.com/b" [] [("a.com", 0)] [("a.com", 0)]).
  - vm_compute. reflexivity.
  - vm_compute. reflexivity.
Defined.

Lemma check_dns_record_raises_only_on_witness :
  @nil (string * Z) = [] /\ cache_get "a..b" [] = None /\
  gethostbyname offline_env "a..b" = Raise UnicodeError /\
  is_socket_error UnicodeError = false.
Proof.
  apply (check_dns_record_raises_only_on offline_env "a..b" [] [] UnicodeError).
  reflexivity.
Defined.

Lemma check_dns_record_evicts_oldest_witness :
  ("new.example", 0) :: repeat ("recent.example", 1) (Z.to_nat 9999) =
  ("new.example", 0) :: repeat ("recent.example", 1) (Z.to_nat 9999).
Proof.
  apply (check_dns_record_evicts_oldest offline_env "new.example"
           (repeat ("recent.example", 1) (Z.to_nat 9999))
           (("new.example", 0) :: repeat ("recent.example", 1) (Z.to_nat 9999))
           ("oldest.example", 0) 0).
  - vm_compute. reflexivity.
  - vm_compute. reflexivity.
  - vm_compute. reflexivity.
Defined.

Lemma check_dns_record_keeps_others_witness :
  cache_get "b.com" (snd (check_dns_record offline_env "a.com" [("b.com", 1)])) =
  cache_get "b.com" [("b.com", 1)].
Proof.
  apply (check_dns_record_keeps_others offline_env "a.com" "b.com" [("b.com", 1)]).
  - unfold maxsize. cbn [List.length]. lia.
  - discriminate.
Defined.

Lemma get_domain_age_threshold_witness :
  get_domain_age online_env "example.com" =
    Return (if datetime_now online_env - 0 >=? 365 * 86400000000 then 1 else 0).
Proof.
  apply (get_domain_age_threshold online_env "example.com"
           (mkWhoisEntry
              (Return (PList [DDatetime false 0; DDatetime false 5]))
              (Return (PScalar (DDatetime false 2000000000000000))))
           (PList [DDatetime false 0; DDatetime false 5]) 0);
    reflexivity.
Defined.

Lemma get_domain_end_period_threshold_witness :
  get_domain_end_period online_env "example.com" =
    Return (if 2000000000000000 - datetime_now online_env >=? 180 * 86400000000
            then 1 else 0).
Proof.
  apply (get_domain_end_period_threshold online_env "example.com"
           (mkWhoisEntry
              (Return (PList [DDatetime false 0; DDatetime false 5]))
              (Return (PScalar (DDatetime false 2000000000000000))))
           (PScalar (DDatetime false 2000000000000000)) 2000000000000000);
    reflexivity.
Defined.

Lemma registration_date_unusable_witness :
  get_domain_age
    (mkEnv (fun _ => Raise gaierror) []
       (fun _ => Return (mkWhoisEntry (Return (PScalar DNone))
                                      (Return (PScalar (DDatetime true 0)))))
       1762128000000000 (fun _ _ => Raise RequestException))
    "example.com" = Return 0 /\
  get_domain_end_period
    (mkEnv (fun _ => Raise gaierror) []
       (fun _ => Return (mkWhoisEntry (Return (PScalar DNone))
                                      (Return (PScalar (DDatetime true 0)))))
       1762128000000000 (fun _ _ => Raise RequestException))
    "example.com" = Return 0.
Proof.
  destruct (registration_date_unusable
              (mkEnv (fun _ => Raise gaierror) []
                 (fun _ => Return (mkWhoisEntry (Return (PScalar DNone))
                                                (Return (PScalar (DDatetime true 0)))))
                 1762128000000000 (fun _ _ => Raise RequestException))
              "example.com"
              (mkWhoisEntry (Return (PScalar DNone))
                            (Return (PScalar (DDatetime true 0))))
              eq_refl) as [Hage Hend].
  split; [apply Hage | apply Hend]; intros t; discriminate.
Defined.

Lemma get_web_traffic_membership_witness :
  get_web_traffic online_env "example.com" = 1 /\
  get_web_traffic offline_env "example.com" = 0.
Proof.
  split.
  - apply (proj1 (get_web_traffic_membership online_env "example.com")).
    exists [CellInt 1; CellStr "example.com"]. split.
    + left. reflexivity.
    + right. left. reflexivity.
  - apply (proj2 (get_web_traffic_membership offline_env "example.com")).
    reflexivity.
Defined.

Lemma make_prediction_and_explain_tuple_witness :
  extract_features no_bracket_check no_nfkc_delimiter online_env "http://example.com/login" [] =
    (Return [0; 0; 1; 1; 0; 0; 0; 0; 1; 1; 1; 1; 0; 1; 1; 1], [("example.com", 1)]) /\
  scaler_transform list_artifacts [0; 0; 1; 1; 0; 0; 0; 0; 1; 1; 1; 1; 0; 1; 1; 1] =
    Return [0; 0; 1; 1; 0; 0; 0; 0; 1; 1; 1; 1; 0; 1; 1; 1] /\
  (exists pr,
      model_predict list_artifacts [0; 0; 1; 1; 0; 0; 0; 0; 1; 1; 1; 1; 0; 1; 1; 1] = Return pr /\
      item_0_0 list_artifacts pr = Return 1) /\
  (exists out sh0,
      explainer_shap_values list_artifacts
        [0; 0; 1; 1; 0; 0; 0; 0; 1; 1; 1; 1; 0; 1; 1; 1] = Return out /\
      (out = @ShapArray _ sh0 \/ exists rest, out = @ShapList _ (sh0 :: rest)) /\
      (if Nat.eqb (ndim list_artifacts sh0) 3
       then squeeze_last list_artifacts sh0 =
              Return [0; 0; 1; 1; 0; 0; 0; 0; 1; 1; 1; 1; 0; 1; 1; 1]
       else sh0 = [0; 0; 1; 1; 0; 0; 0; 0; 1; 1; 1; 1; 0; 1; 1; 1])).
Proof.
  apply (make_prediction_and_explain_tuple no_bracket_check no_nfkc_delimiter list_artifacts online_env
           "http://example.com/login" [] [("example.com", 1)] 1
           [0; 0; 1; 1; 0; 0; 0; 0; 1; 1; 1; 1; 0; 1; 1; 1]
           [0; 0; 1; 1; 0; 0; 0; 0; 1; 1; 1; 1; 0; 1; 1; 1]
           [0; 0; 1; 1; 0; 0; 0; 0; 1; 1; 1; 1; 0; 1; 1; 1]).
  vm_compute. reflexivity.
Defined.

Lemma lexical_features_of_plain_url_witness :
  get_url_depth no_bracket_check no_nfkc_delimiter ("https" ++ "://" ++ "my-host.example" ++ "/a//b-c") =
    Return (if String.eqb "/a//b-c" "/" then 0 else count "/" "/a//b-c") /\
  has_redirection no_bracket_check no_nfkc_delimiter ("https" ++ "://" ++ "my-host.example" ++ "/a//b-c") =
    Return (if contains "//" "/a//b-c" then 1 else 0) /\
  has_https_in_domain no_bracket_check no_nfkc_delimiter ("https" ++ "://" ++ "my-host.example" ++ "/a//b-c") =
    Return (if contains "https" "my-host.example" then 1 else 0) /\
  is_tiny_url no_bracket_check no_nfkc_delimiter ("https" ++ "://" ++ "my-host.example" ++ "/a//b-c") =
    Return (if in_list "my-host.example" ["bit.ly"; "goog.gl"; "tinyurl.com"; "ow.ly"; "t.co"]
            then 1 else 0) /\
  has_prefix_suffix no_bracket_check no_nfkc_delimiter ("https" ++ "://" ++ "my-host.example" ++ "/a//b-c") =
    Return (if has_char "-" "my-host.example" then 1 else 0).
Proof.
  apply (lexical_features_of_plain_url no_bracket_check no_nfkc_delimiter
           "https" "my-host.example" "/a//b-c").
  - right. reflexivity.
  - reflexivity.
  - left. reflexivity.
  - reflexivity.
Defined.

Lemma extract_features_of_plain_url_witness :
  nth 3 [0; 0; 1; 2; 0; 0; 0; 0; 1; 0; 1; 1; 0; 1; 1; 1] 0 = count "/" (rstrip "/" "/b/c//") /\
  nth 4 [0; 0; 1; 2; 0; 0; 0; 0; 1; 0; 1; 1; 0; 1; 1; 1] 0 =
    (if contains "//" (rstrip "/" "/b/c//") then 1 else 0) /\
  nth 5 [0; 0; 1; 2; 0; 0; 0; 0; 1; 0; 1; 1; 0; 1; 1; 1] 0 =
    (if contains "https" "a.com" then 1 else 0) /\
  nth 6 [0; 0; 1; 2; 0; 0; 0; 0; 1; 0; 1; 1; 0; 1; 1; 1] 0 =
    (if in_list "a.com" ["bit.ly"; "goog.gl"; "tinyurl.com"; "ow.ly"; "t.co"]
     then 1 else 0) /\
  nth 7 [0; 0; 1; 2; 0; 0; 0; 0; 1; 0; 1; 1; 0; 1; 1; 1] 0 =
    (if has_char "-" "a.com" then 1 else 0).
Proof.
  apply (extract_features_of_plain_url no_bracket_check no_nfkc_delimiter online_env
           "http" "a.com" "/b/c//" [] [("a.com", 1)]).
  - left. reflexivity.
  - reflexivity.
  - discriminate.
  - reflexivity.
  - vm_compute. reflexivity.
Defined.

Lemma unbalanced_bracket_url_witness :
  extract_features no_bracket_check no_nfkc_delimiter offline_env ("http" ++ "://" ++ "[::1" ++ "/x") [] =
    (Raise ValueError, []) /\
  make_prediction_and_explain no_bracket_check no_nfkc_delimiter list_artifacts offline_env
    ("http" ++ "://" ++ "[::1" ++ "/x") [] = (Return None, []).
Proof.
  apply (unbalanced_bracket_url no_bracket_check no_nfkc_delimiter list_artifacts offline_env
           "http" "[::1" "/x" []).
  - left. reflexivity.
  - reflexivity.
  - reflexivity.
  - reflexivity.
Defined.

Lemma extract_features_raises_only_on_witness :
  @nil (string * Z) = [] /\
  (urlparse no_bracket_check no_nfkc_delimiter (rstrip "/" "http://a..b/") = Raise UnicodeError \/
   exists p,
     urlparse no_bracket_check no_nfkc_delimiter (rstrip "/" "http://a..b/") = Return p /\
     cache_get (netloc p) [] = None /\
     gethostbyname offline_env (netloc p) = Raise UnicodeError /\
     is_socket_error UnicodeError = false).
Proof.
  apply (extract_features_raises_only_on no_bracket_check no_nfkc_delimiter offline_env
           "http://a..b/" [] [] UnicodeError).
  vm_compute. reflexivity.
Defined.

Lemma check_dns_record_one_entry_per_domain_witness :
  NoDup (map fst (snd (check_dns_record offline_env "b.com" [("a.com", 1)]))).
Proof.
  apply (check_dns_record_one_entry_per_domain offline_env "b.com" [("a.com", 1)]).
  constructor; [intros [] | constructor].
Defined.

Lemma lexical_features_of_schemeless_url_witness :
  get_url_depth no_bracket_check no_nfkc_delimiter "bit.ly/my-https-page" =
    Return (if String.eqb "bit.ly/my-https-page" "/" then 0
            else count "/" "bit.ly/my-https-page") /\
  has_redirection no_bracket_check no_nfkc_delimiter "bit.ly/my-https-page" =
    Return (if contains "//" "bit.ly/my-https-page" then 1 else 0) /\
  has_https_in_domain no_bracket_check no_nfkc_delimiter "bit.ly/my-https-page" = Return 0 /\
  is_tiny_url no_bracket_check no_nfkc_delimiter "bit.ly/my-https-page" = Return 0 /\
  has_prefix_suffix no_bracket_check no_nfkc_delimiter "bit.ly/my-https-page" = Return 0.
Proof.
  apply (lexical_features_of_schemeless_url no_bracket_check no_nfkc_delimiter "bit.ly/my-https-page").
  reflexivity.
Defined.

Lemma extract_features_of_schemeless_url_witness :
  nth 5 [0; 0; 1; 1; 0; 0; 0; 0; 1; 0; 1; 1; 0; 1; 1; 1] 0 = 0 /\
  nth 6 [0; 0; 1; 1; 0; 0; 0; 0; 1; 0; 1; 1; 0; 1; 1; 1] 0 = 0 /\
  nth 7 [0; 0; 1; 1; 0; 0; 0; 0; 1; 0; 1; 1; 0; 1; 1; 1] 0 = 0 /\
  check_dns_record online_env "" [] =
    (Return (nth 8 [0; 0; 1; 1; 0; 0; 0; 0; 1; 0; 1; 1; 0; 1; 1; 1] 0), [("", 1)]) /\
  nth 9 [0; 0; 1; 1; 0; 0; 0; 0; 1; 0; 1; 1; 0; 1; 1; 1] 0 = get_web_traffic online_env "" /\
  get_domain_age online_env "" =
    Return (nth 10 [0; 0; 1; 1; 0; 0; 0; 0; 1; 0; 1; 1; 0; 1; 1; 1] 0) /\
  get_domain_end_period online_env "" =
    Return (nth 11 [0; 0; 1; 1; 0; 0; 0; 0; 1; 0; 1; 1; 0; 1; 1; 1] 0).
Proof.
  apply (extract_features_of_schemeless_url no_bracket_check no_nfkc_delimiter online_env
           "bit.ly/abc/" [] [("", 1)]).
  - reflexivity.
  - vm_compute. reflexivity.
Defined.
